(** * kipoiseq.datasets.sequence: interval table and sequence datasets

    A shallow embedding of [kipoiseq/datasets/sequence.py]: the helpers
    [parse_dtype] and [parse_alphabet], the interval table [BedDataset], the
    string dataset [SeqStringDataset] and the one-hot dataset [SeqDataset].

    Python exceptions are values of [exn]; a call that may raise returns a
    [result].  pandas, numpy, pybedtools and the FASTA extractor are outside
    the file: what the code calls of them is a field of the class
    [Collaborators], of which nothing is assumed but the types; the transforms
    of [kipoiseq.transforms] are modelled next to their use. *)

From Stdlib Require Import List String Ascii ZArith Bool Lia Arith.
From Stdlib Require Import DecimalString DecimalZ.
Import ListNotations.

Local Open Scope string_scope.
Local Open Scope list_scope.

Set Implicit Arguments.

(** ** Exceptions and results *)

(** The exception classes the module can raise, each with its message where
    the source gives one. *)
Inductive exn : Type :=
| AssertionError
| Exception (msg : string)
| ValueError (msg : string)
| TypeError (msg : string)
| AttributeError (msg : string)
| KeyError (key : string)
| IndexError (msg : string)
| AxisError (msg : string)
| MalformedBedLineError (msg : string)
| EmptyDataError (msg : string)
| FastaNotFoundError (msg : string).

Inductive result (A : Type) : Type :=
| Ok (a : A)
| Raise (e : exn).

Arguments Ok {A} a.
Arguments Raise {A} e.

Definition bind {A B : Type} (r : result A) (k : A -> result B) : result B :=
  match r with
  | Ok a => k a
  | Raise e => Raise e
  end.

Notation "x <- r ;; k" := (bind r (fun x => k))
  (at level 61, r at next level, right associativity).
Notation "r ;;; k" := (bind r (fun _ => k))
  (at level 61, right associativity).

(** [assert c]: a failed assertion raises [AssertionError]. *)
Definition assert (c : bool) : result unit :=
  if c then Ok tt else Raise AssertionError.

Fixpoint mapM {A B : Type} (f : A -> result B) (l : list A) : result (list B) :=
  match l with
  | [] => Ok []
  | x :: xs => y <- f x ;; ys <- mapM f xs ;; Ok (y :: ys)
  end.

(** The error classes of the design's taxonomy.  The module declares no
    exception class of its own: a configuration fault is signalled by a failed
    [assert] or by a bare [Exception], an out-of-range lookup by pandas'
    [IndexError]. *)
Inductive error_class : Type :=
| ConfigurationError
| IndexErrorClass
| LibraryError.

Definition classify (e : exn) : error_class :=
  match e with
  | AssertionError => ConfigurationError
  | Exception _ => ConfigurationError
  | IndexError _ => IndexErrorClass
  | _ => LibraryError
  end.

(** ** Python strings *)

(** [str.startswith]. *)
Definition startswith (s p : string) : bool := String.prefix p s.

(** [str(n)] for an [int]. *)
Definition str (n : Z) : string := NilZero.string_of_int (Z.to_int n).

(** [int(s)] restricted to decimal literals; [None] where Python raises. *)
Definition int_of_str (s : string) : option Z :=
  option_map Z.of_int (NilZero.int_of_string s).

(** Splitting on a non-empty separator, left to right, without overlap:
    [skip] counts the characters of a matched separator still to be dropped,
    [cur] is the piece being read. *)
Fixpoint split_on (sep s : string) (skip : nat) (cur : string) : list string :=
  match s with
  | EmptyString => [cur]
  | String c s' =>
      match skip with
      | S k => split_on sep s' k cur
      | O =>
          if String.prefix sep s
          then cur :: split_on sep s' (String.length sep - 1) ""
          else split_on sep s' 0 (cur ++ String c "")%string
      end
  end.

(** [s.split(sep)] with an explicit separator: Python raises
    [ValueError("empty separator")] when [sep] is the empty string. *)
Definition split (s sep : string) : result (list string) :=
  match sep with
  | EmptyString => Raise (ValueError "empty separator")
  | _ => Ok (split_on sep s 0 "")
  end.

(** ** [parse_dtype] and [parse_alphabet] *)

(** The four types [parse_dtype] lists. *)
Inductive scalar_type : Type :=
| scalar_int
| scalar_str
| scalar_float
| scalar_bool.

Definition scalar_type_eqb (a b : scalar_type) : bool :=
  match a, b with
  | scalar_int, scalar_int => true
  | scalar_str, scalar_str => true
  | scalar_float, scalar_float => true
  | scalar_bool, scalar_bool => true
  | _, _ => false
  end.

(** The type objects [parse_dtype] knows, and any other object a caller may
    pass as a dtype: what [str] shows of it, the listed types it compares
    equal to under [==] (a numpy dtype equals the Python type it stands for),
    and whether it can be hashed. *)
Inductive pytype : Type :=
| py_int
| py_str
| py_float
| py_bool
| py_other (name : string) (equal_to : list scalar_type) (hashable : bool).

(** The listed type a type object is, if it is one of the four. *)
Definition scalar_of (t : pytype) : option scalar_type :=
  match t with
  | py_int => Some scalar_int
  | py_str => Some scalar_str
  | py_float => Some scalar_float
  | py_bool => Some scalar_bool
  | py_other _ _ _ => None
  end.

(** [a == b], for the objects above: two listed types are equal when they
    are the same, another object answers for itself, and two other objects
    are told apart by what [str] shows. *)
Definition pytype_eqb (a b : pytype) : bool :=
  match a, b with
  | py_other n _ _, py_other m _ _ => String.eqb n m
  | py_other _ eqs _, t | t, py_other _ eqs _ =>
      match scalar_of t with
      | Some k => existsb (scalar_type_eqb k) eqs
      | None => false
      end
  | _, _ =>
      match scalar_of a, scalar_of b with
      | Some j, Some k => scalar_type_eqb j k
      | _, _ => false
      end
  end.

(** [hash(x)] is defined; the four types can be hashed. *)
Definition pytype_hashable (t : pytype) : bool :=
  match t with
  | py_other _ _ h => h
  | _ => true
  end.

(** The [label_dtype] argument: [None], a type object, or a name. *)
Inductive dtype_arg : Type :=
| DtNone
| DtType (t : pytype)
| DtName (name : string).

(** [dtypes = {'int': int, 'string': str, 'float': float, 'bool': bool}],
    in insertion order. *)
Definition dtypes : list (string * pytype) :=
  [("int", py_int); ("string", py_str); ("float", py_float); ("bool", py_bool)].

Fixpoint dict_get {V : Type} (d : list (string * V)) (k : string) : option V :=
  match d with
  | [] => None
  | (k', v) :: d' => if String.eqb k' k then Some v else dict_get d' k
  end.

Definition dict_values {V : Type} (d : list (string * V)) : list V := map snd d.
Definition dict_keys {V : Type} (d : list (string * V)) : list string := map fst d.

(** [str(list_of_strings)]: the repr of a list of strings. *)
Definition repr_str_list (l : list string) : string :=
  ("[" ++ String.concat ", " (map (fun s => "'" ++ s ++ "'") l) ++ "]")%string.

Definition dtype_not_recognized (shown : string) : exn :=
  Exception ("Datatype '" ++ shown ++ "' not recognized. Allowed are: "
             ++ repr_str_list (dict_keys dtypes))%string.

Definition pytype_repr (t : pytype) : string :=
  match t with
  | py_int => "<class 'int'>"
  | py_str => "<class 'str'>"
  | py_float => "<class 'float'>"
  | py_bool => "<class 'bool'>"
  | py_other n _ _ => n
  end.

Definition parse_dtype (dtype : dtype_arg) : result (option pytype) :=
  match dtype with
  | DtNone => Ok None
  | DtType t =>
      (* [dtype in list(dtypes.values())] compares with [==] and the object
         itself is returned; [dtype not in dtypes] hashes the object, and an
         object that is not a string is no key of the dict *)
      if existsb (fun v => pytype_eqb v t) (dict_values dtypes) then Ok (Some t)
      else if pytype_hashable t
           then Raise (dtype_not_recognized (pytype_repr t))
           else Raise (TypeError "unhashable type")
  | DtName name =>
      match dict_get dtypes name with
      | None => Raise (dtype_not_recognized name)
      | Some t => Ok (Some t)
      end
  end.

(** The [alphabet] argument: a string or a list of symbols. *)
Inductive alphabet_arg : Type :=
| AlphaStr (s : string)
| AlphaList (l : list string).

Definition parse_alphabet (alphabet : alphabet_arg) : result (list string) :=
  match alphabet with
  | AlphaStr s => split s ""
  | AlphaList l => Ok l
  end.

(** ** Arrays *)

(** An element of an array: a string or a number. *)
Inductive elem : Type :=
| EStr (s : string)
| ENum (z : Z).

(** An n-dimensional array: its shape and its element at each index vector
    (read inside the shape only). *)
Record ndarray : Type := mkArray {
  shape : list nat;
  item : list nat -> elem
}.

Definition ndim (x : ndarray) : nat := List.length (shape x).

(** [np.array(seq)] for a string: an array of no axes holding the string. *)
Definition np_array (seq : string) : ndarray := mkArray [] (fun _ => EStr seq).

(** ** Transforms

    [kipoiseq.transforms] ([OneHot], [DummyAxis], [SwapAxes], [Compose]) is
    imported by the module and is not among the sources at hand. *)

(** [alphabet.index(sym)]: the first position of [sym], if any. *)
Fixpoint index_of (alphabet : list string) (sym : string) : option nat :=
  match alphabet with
  | [] => None
  | a :: rest =>
      if String.eqb a sym then Some 0 else option_map S (index_of rest sym)
  end.

(** Modelled from the spec: [one_hot], absent from the sources.  The matrix
    has one row per position of the sequence and one column per symbol of the
    alphabet; row [i] has a one in column [alphabet.index(sequence[i])] and
    zeros elsewhere, and is all zero for a symbol outside the alphabet. *)
Definition one_hot (seq : string) (alphabet : list string) : ndarray :=
  mkArray [String.length seq; List.length alphabet]
    (fun idx =>
       match idx with
       | [i; j] =>
           match String.get i seq with
           | Some c =>
               match index_of alphabet (String c "") with
               | Some k => if Nat.eqb k j then ENum 1 else ENum 0
               | None => ENum 0
               end
           | None => ENum 0
           end
       | _ => ENum 0
       end).

(** Modelled from the spec: the insertion of a size-1 axis at position
    [axis], the later axes moving outward; a position past the last one is
    refused. *)
Definition expand_dims (x : ndarray) (axis : nat) : result ndarray :=
  if (axis <=? ndim x)%nat
  then Ok (mkArray (firstn axis (shape x) ++ 1 :: skipn axis (shape x))
             (fun idx => item x (firstn axis idx ++ skipn (S axis) idx)))
  else Raise (AxisError "axis is out of bounds").

Fixpoint set_nth {A : Type} (k : nat) (v : A) (l : list A) : list A :=
  match l, k with
  | [], _ => []
  | _ :: rest, O => v :: rest
  | x :: rest, S k' => x :: set_nth k' v rest
  end.

(** The list with its entries at [i] and [j] exchanged. *)
Definition swap {A : Type} (i j : nat) (l : list A) : list A :=
  match nth_error l i, nth_error l j with
  | Some a, Some b => set_nth i b (set_nth j a l)
  | _, _ => l
  end.

(** Modelled from the spec: the exchange of two axes; an axis the array does
    not have is refused. *)
Definition swapaxes (x : ndarray) (axis1 axis2 : nat) : result ndarray :=
  if ((axis1 <? ndim x) && (axis2 <? ndim x))%nat
  then Ok (mkArray (swap axis1 axis2 (shape x))
             (fun idx => item x (swap axis1 axis2 idx)))
  else Raise (AxisError "axis is out of bounds").

(** The transform objects the dataset builds. *)
Inductive transform : Type :=
| OneHot (alphabet : list string)
| DummyAxis (axis : option nat)
| SwapAxes (axis1 axis2 : nat).

(** Modelled from the spec: calling a transform, absent from the sources.
    [OneHot] encodes the string of a string array; [DummyAxis] inserts its
    axis when one is set; [SwapAxes] exchanges its two axes. *)
Definition call (t : transform) (x : ndarray) : result ndarray :=
  match t with
  | OneHot alphabet =>
      match shape x, item x [] with
      | [], EStr seq => Ok (one_hot seq alphabet)
      | _, _ => Raise (TypeError "one-hot encoding expects a sequence string")
      end
  | DummyAxis None => Ok x
  | DummyAxis (Some axis) => expand_dims x axis
  | SwapAxes axis1 axis2 => swapaxes x axis1 axis2
  end.

(** Modelled from the spec: [Compose], absent from the sources; the
    transforms of the list are applied from first to last. *)
Definition Compose (transforms : list transform) (x : ndarray) : result ndarray :=
  fold_left (fun acc t => y <- acc ;; call t y) transforms (Ok x).

(** ** Data frames *)

(** [re.sub("^chr", "", s)]: the anchor matches at the start of the string
    only, so at most one leading ["chr"] is removed.  (The pattern is a
    regular expression, as [Series.str.replace] takes it by default in the
    pandas the file was written for.) *)
Definition re_sub_chr (s : string) : string :=
  if String.prefix "chr" s then String.substring 3 (String.length s - 3) s else s.

(** Positional lookup [seq.iloc[idx]]: a negative index counts from the end,
    anything outside [-n, n) raises [IndexError]. *)
Definition iloc {A : Type} (l : list A) (idx : Z) : result A :=
  let n := Z.of_nat (List.length l) in
  let i := (if idx <? 0 then idx + n else idx)%Z in
  if ((0 <=? i) && (i <? n))%Z
  then match nth_error l (Z.to_nat i) with
       | Some x => Ok x
       | None => Raise (IndexError "single positional indexer is out-of-bounds")
       end
  else Raise (IndexError "single positional indexer is out-of-bounds").

(** Selection by a boolean mask, [df[mask]]: the rows whose mask entry is
    true, in their order; pandas refuses a mask of another length. *)
Fixpoint getitem_mask {A : Type} (rows : list A) (mask : list bool) : result (list A) :=
  match rows, mask with
  | [], [] => Ok []
  | r :: rs, b :: bs =>
      rest <- getitem_mask rs bs ;;
      Ok (if b then r :: rest else rest)
  | _, _ => Raise (ValueError "Item wrong length")
  end.

Fixpoint enumerate_from {A : Type} (i : nat) (l : list A) : list (nat * A) :=
  match l with
  | [] => []
  | x :: xs => (i, x) :: enumerate_from (S i) xs
  end.

Definition enumerate {A : Type} (l : list A) : list (nat * A) := enumerate_from 0 l.

(** [bed_types], the column types of a BED file. *)
Definition bed_types : list pytype :=
  [py_str;    (* chrom *)
   py_int;    (* chromStart *)
   py_int;    (* chromEnd *)
   py_str;    (* name *)
   py_float;  (* score *)
   py_str;    (* strand *)
   py_int;    (* thickStart *)
   py_int;    (* thickEnd *)
   py_str;    (* itemRbg *)
   py_int;    (* blockCount *)
   py_int;    (* blockSizes *)
   py_int].   (* blockStarts *)

(** The [dtype] argument of the second [read_table] call. *)
Definition dtype_dict (bed_columns : nat) (label_dtype : option pytype) (n_tasks : Z)
  : list (nat * option pytype) :=
  enumerate (map Some (firstn bed_columns bed_types)
             ++ repeat label_dtype (Z.to_nat n_tasks)).

(** A [float64] as data: not a number, an infinity, or [mantissa * 2^exponent].
    The module never computes with one. *)
Inductive float64 : Type :=
| Fnan
| Finf (negative : bool)
| Ffinite (mantissa exponent : Z).

(** A cell of the frame. *)
Inductive cell : Type :=
| CStr (s : string)
| CInt (z : Z)
| CFloat (x : float64)
| CBool (b : bool).

(** A frame is its rows in positional order; [shape[1]] of the one-row
    frame peeked at construction is the length of that row. *)
Definition DataFrame : Type := list (list cell).

Definition ncols (df : DataFrame) : nat :=
  match df with
  | [] => 0
  | r :: _ => List.length r
  end.

(** A [pybedtools.Interval]: the attributes the module reads, and the fields
    it was created from. *)
Record Interval : Type := mkInterval {
  chrom : string;
  start : Z;
  stop : Z;
  fields : list cell
}.

(** [kipoiseq.extractors.FastaStringExtractor]: a handle, with the settings
    it holds; it is built by [new_FastaStringExtractor] and [extract] is its
    only operation. *)
Record FastaStringExtractor : Type := mkFastaStringExtractor {
  fe_fasta_file : string;
  fe_use_strand : bool;
  fe_force_upper : bool
}.

(** What the module calls and does not define: pandas, numpy, pybedtools and
    the parts of kipoiseq imported from other files.  Nothing is assumed of
    them but their types. *)
Class Collaborators : Type := {
  (** [pd.read_table(path, header=None, nrows=.., dtype=.., sep='\t')] *)
  read_table :
    string -> option nat -> option (list (nat * option pytype)) -> result DataFrame;
  (** elementwise [==] of a frame cell against a scalar *)
  np_eq : cell -> cell -> bool;
  (** [ndarray.astype(dtype)] on a row of label values *)
  astype : option pytype -> list cell -> result (list cell);
  (** [kipoiseq.utils.to_scalar] *)
  to_scalar : cell -> cell;
  (** [pybedtools.create_interval_from_list] *)
  create_interval_from_list : list cell -> result Interval;
  (** [FastaStringExtractor(fasta_file, use_strand=.., force_upper=..)]: it
      opens the FASTA file and raises when it cannot *)
  new_FastaStringExtractor : string -> bool -> bool -> result FastaStringExtractor;
  (** [FastaStringExtractor.extract] *)
  extract : FastaStringExtractor -> Interval -> result string;
  (** [kipoiseq.transforms.functional.resize_interval], called as
      [resize_interval(interval, anchor, width)] *)
  resize_interval : Interval -> string -> Z -> result Interval
}.

Section Datasets.

Context {lib : Collaborators}.

(** [row[0]]. *)
Definition row_get0 (r : list cell) : result cell :=
  match r with
  | [] => Raise (KeyError "0")
  | c :: _ => Ok c
  end.

(** [self.df.iloc[0][0].startswith("chr")]. *)
Definition first_row_startswith_chr (df : DataFrame) : result bool :=
  r <- iloc df 0 ;;
  c <- row_get0 r ;;
  match c with
  | CStr s => Ok (startswith s "chr")
  | _ => Raise (AttributeError "object has no attribute 'startswith'")
  end.

(** [df[0] = f(df[0])] for an [f] that works cell by cell. *)
Definition assign_col0 (f : cell -> result cell) (df : DataFrame) : result DataFrame :=
  mapM (fun r => match r with
                 | [] => Raise (KeyError "0")
                 | c :: rest => c' <- f c ;; Ok (c' :: rest)
                 end) df.

(** [df[0].str.replace("^chr", "")]: column 0 is read with dtype [str]; the
    [.str] accessor refuses a column of anything else. *)
Definition str_replace_chr (c : cell) : result cell :=
  match c with
  | CStr s => Ok (CStr (re_sub_chr s))
  | _ => Raise (AttributeError "Can only use .str accessor with string values")
  end.

(** ["chr" + df[0]]. *)
Definition str_add_chr (c : cell) : result cell :=
  match c with
  | CStr s => Ok (CStr ("chr" ++ s)%string)
  | _ => Raise (TypeError "can only concatenate str to str")
  end.

(** [df[0].isin(names)]. *)
Definition isin (names : list string) (df : DataFrame) : result (list bool) :=
  mapM (fun r => c <- row_get0 r ;;
                 Ok (match c with
                     | CStr s => existsb (String.eqb s) names
                     | _ => false
                     end)) df.

(** One row of [df.iloc[:, bed_columns:] == ambiguous_mask] under [np.all]:
    every task cell of the row equals the mask (true when there is none). *)
Definition row_ambiguous (bed_columns : nat) (ambiguous_mask : cell) (r : list cell)
  : bool :=
  forallb (fun c => np_eq c ambiguous_mask) (skipn bed_columns r).

(** [np.all(df.iloc[:, bed_columns:] == ambiguous_mask, axis=1)]. *)
Definition all_ambiguous (bed_columns : nat) (ambiguous_mask : cell) (df : DataFrame)
  : list bool :=
  map (row_ambiguous bed_columns ambiguous_mask) df.

(** ** [BedDataset] *)

Record BedDataset : Type := mkBedDataset {
  tsv_file : string;
  bed_columns : nat;
  num_chr : bool;
  label_dtype : option pytype;
  ambiguous_mask : option cell;
  incl_chromosomes : option (list string);
  excl_chromosomes : option (list string);
  n_tasks : Z;
  df : DataFrame
}.

(** The two [if] statements that normalise the chromosome names; [and]
    evaluates its right operand only when the left one is true. *)
Definition normalize_chr (num_chr : bool) (df : DataFrame) : result DataFrame :=
  df <- (if num_chr
         then b <- first_row_startswith_chr df ;;
              if b then assign_col0 str_replace_chr df else Ok df
         else Ok df) ;;
  if negb num_chr
  then b <- first_row_startswith_chr df ;;
       if negb b then assign_col0 str_add_chr df else Ok df
  else Ok df.

(** The three filters, in the order of the source. *)
Definition drop_ambiguous (bed_columns : nat) (ambiguous_mask : option cell)
    (df : DataFrame) : result DataFrame :=
  match ambiguous_mask with
  | Some m => getitem_mask df (map negb (all_ambiguous bed_columns m df))
  | None => Ok df
  end.

Definition keep_incl (incl : option (list string)) (df : DataFrame) : result DataFrame :=
  match incl with
  | Some names => mask <- isin names df ;; getitem_mask df mask
  | None => Ok df
  end.

Definition drop_excl (excl : option (list string)) (df : DataFrame) : result DataFrame :=
  match excl with
  | Some names => mask <- isin names df ;; getitem_mask df (map negb mask)
  | None => Ok df
  end.

(** [BedDataset.__init__] from the second [read_table] call on. *)
Definition BedDataset_load (tsv_file : string) (label_dtype : option pytype)
    (bed_columns : nat) (num_chr : bool) (ambiguous_mask : option cell)
    (incl_chromosomes excl_chromosomes : option (list string)) (n_tasks : Z)
  : result BedDataset :=
  df <- read_table tsv_file None (Some (dtype_dict bed_columns label_dtype n_tasks)) ;;
  df <- normalize_chr num_chr df ;;
  df <- drop_ambiguous bed_columns ambiguous_mask df ;;
  df <- keep_incl incl_chromosomes df ;;
  df <- drop_excl excl_chromosomes df ;;
  Ok (mkBedDataset tsv_file bed_columns num_chr label_dtype ambiguous_mask
        incl_chromosomes excl_chromosomes n_tasks df).

(** [BedDataset.__init__]. *)
Definition BedDataset_init (tsv_file : string) (label_dtype : option pytype)
    (bed_columns : nat) (num_chr : bool) (ambiguous_mask : option cell)
    (incl_chromosomes excl_chromosomes : option (list string))
  : result BedDataset :=
  df_peek <- read_table tsv_file (Some 1) None ;;
  let n_tasks := (Z.of_nat (ncols df_peek) - Z.of_nat bed_columns)%Z in
  assert (0 <=? n_tasks)%Z ;;;
  BedDataset_load tsv_file label_dtype bed_columns num_chr ambiguous_mask
    incl_chromosomes excl_chromosomes n_tasks.

(** [BedDataset.__len__]. *)
Definition BedDataset_len (self : BedDataset) : nat := List.length (df self).

(** The labels of a row: the empty dict when the table has no task column,
    the array of the task columns otherwise. *)
Inductive labels : Type :=
| LabelsDict
| LabelsArray (values : list cell).

(** [BedDataset.__getitem__]. *)
Definition BedDataset_getitem (self : BedDataset) (idx : Z) : result (Interval * labels) :=
  row <- iloc (df self) idx ;;
  interval <- create_interval_from_list (map to_scalar (firstn (bed_columns self) row)) ;;
  labels <- (if (n_tasks self =? 0)%Z
             then Ok LabelsDict
             else a <- astype (label_dtype self) (skipn (bed_columns self) row) ;;
                  Ok (LabelsArray a)) ;;
  Ok (interval, labels).

(** [BedDataset.get_targets]: the task columns of every row, cast to the
    label dtype.  The cast of the matrix works cell by cell; it is applied
    here to one row after the other. *)
Definition BedDataset_get_targets (self : BedDataset) : result (list (list cell)) :=
  mapM (fun r => astype (label_dtype self) (skipn (bed_columns self) r)) (df self).

(** ** [SeqStringDataset] *)

Record SeqStringDataset : Type := mkSeqStringDataset {
  num_chr_fasta : bool;
  intervals_file : string;
  fasta_file : string;
  required_seq_len : option Z;
  use_strand : bool;
  force_upper : bool;
  auto_resize : option string;
  bed : BedDataset;
  fasta_extractors : option FastaStringExtractor
}.

(** [SeqStringDataset.__init__]; the defaults of [BedDataset.__init__] are
    written out. *)
Definition SeqStringDataset_init (intervals_file fasta_file : string)
    (num_chr_fasta : bool) (label_dtype : dtype_arg) (required_seq_len : option Z)
    (use_strand force_upper : bool) (auto_resize : option string)
  : result SeqStringDataset :=
  dtype <- parse_dtype label_dtype ;;
  bed <- BedDataset_init intervals_file dtype 3 num_chr_fasta None None None ;;
  Ok (mkSeqStringDataset num_chr_fasta intervals_file fasta_file required_seq_len
        use_strand force_upper auto_resize bed None).

(** [SeqStringDataset.__len__]. *)
Definition SeqStringDataset_len (self : SeqStringDataset) : nat :=
  BedDataset_len (bed self).

(** [GenomicRanges(chr, start, end, id)]. *)
Record GenomicRanges : Type := mkGenomicRanges {
  gr_chr : string;
  gr_start : Z;
  gr_end : Z;
  gr_id : string
}.

Record Metadata : Type := mkMetadata { ranges : GenomicRanges }.

(** The dict a lookup returns. *)
Record Sample : Type := mkSample {
  inputs : ndarray;
  targets : labels;
  metadata : Metadata
}.

Definition length_mismatch : exn :=
  Exception ("Sequence interval in intervals_file does not match required model sequence "
             ++ "length. Update intervals_file or use the 'auto_resize' argument.")%string.

(** The interval handed to the extractor: the [required_seq_len] block. *)
Definition checked_interval (self : SeqStringDataset) (interval : Interval)
  : result Interval :=
  match required_seq_len self with
  | Some len =>
      if negb (stop interval - start interval =? len)%Z
      then match auto_resize self with
           | Some anchor => resize_interval interval anchor len
           | None => Raise length_mismatch
           end
      else Ok interval
  | None => Ok interval
  end.

(** The first statement of [__getitem__]: the handle the dataset holds, or a
    new one when it holds none; building one can raise. *)
Definition get_extractor (self : SeqStringDataset) : result FastaStringExtractor :=
  match fasta_extractors self with
  | None => new_FastaStringExtractor (fasta_file self) (use_strand self) (force_upper self)
  | Some e => Ok e
  end.

Definition set_fasta_extractors (self : SeqStringDataset) (e : FastaStringExtractor)
  : SeqStringDataset :=
  mkSeqStringDataset (num_chr_fasta self) (intervals_file self) (fasta_file self)
    (required_seq_len self) (use_strand self) (force_upper self) (auto_resize self)
    (bed self) (Some e).

(** [SeqStringDataset.__getitem__]: the dataset after the call and what the
    call returns.  When the handle cannot be built the call raises at once
    and the dataset is as it was; once the handle is set it stays set, also
    when the rest of the lookup raises. *)
Definition SeqStringDataset_getitem (self : SeqStringDataset) (idx : Z)
  : SeqStringDataset * result Sample :=
  match get_extractor self with
  | Raise err => (self, Raise err)
  | Ok e =>
      (set_fasta_extractors self e,
       il <- BedDataset_getitem (bed self) idx ;;
       interval <- checked_interval self (fst il) ;;
       seq <- extract e interval ;;
       Ok (mkSample (np_array seq) (snd il)
             (mkMetadata (mkGenomicRanges (chrom interval) (start interval)
                            (stop interval) (str idx)))))
  end.

(** The dataset after the lookups of [idxs], one after the other. *)
Definition after_lookups (self : SeqStringDataset) (idxs : list Z) : SeqStringDataset :=
  fold_left (fun s i => fst (SeqStringDataset_getitem s i)) idxs self.

(** ** [SeqDataset] *)

Record SeqDataset : Type := mkSeqDataset {
  alphabet_axis : nat;
  dummy_axis : option nat;
  alphabet : list string;
  seq_string_dataset : SeqStringDataset;
  input_tranform : list transform
}.

(** [SeqDataset.__init__]. *)
Definition SeqDataset_init (intervals_file fasta_file : string)
    (num_chr_fasta : bool) (label_dtype : dtype_arg) (required_seq_len : option Z)
    (use_strand : bool) (auto_resize : option string) (alphabet_axis : nat)
    (dummy_axis : option nat) (alphabet : alphabet_arg)
  : result SeqDataset :=
  alphabet <- parse_alphabet alphabet ;;
  ssd <- SeqStringDataset_init intervals_file fasta_file num_chr_fasta label_dtype
           required_seq_len use_strand true auto_resize ;;
  Ok (mkSeqDataset alphabet_axis dummy_axis alphabet ssd
        [OneHot alphabet; DummyAxis dummy_axis; SwapAxes 1 alphabet_axis]).

(** [SeqDataset.__len__]. *)
Definition SeqDataset_len (self : SeqDataset) : nat :=
  SeqStringDataset_len (seq_string_dataset self).

Definition set_seq_string_dataset (self : SeqDataset) (d : SeqStringDataset) : SeqDataset :=
  mkSeqDataset (alphabet_axis self) (dummy_axis self) (alphabet self) d
    (input_tranform self).

(** [SeqDataset.__getitem__]. *)
Definition SeqDataset_getitem (self : SeqDataset) (idx : Z) : SeqDataset * result Sample :=
  let (ssd, r) := SeqStringDataset_getitem (seq_string_dataset self) idx in
  (set_seq_string_dataset self ssd,
   ret <- r ;;
   x <- Compose (input_tranform self) (inputs ret) ;;
   Ok (mkSample x (targets ret) (metadata ret))).

End Datasets.

(** ** Reference collaborators

    Executable stand-ins for the collaborators, used to run the datasets on
    concrete tables. *)

(** Modelled from the spec: [resize_interval], absent from the sources.
    [start] keeps the start, [end] keeps the stop, [center] keeps the
    midpoint: the new start is the floor of midpoint minus half the width,
    that is, of [(start + stop - width) / 2].  Another anchor is refused. *)
Definition resize_interval_model (interval : Interval) (anchor : string) (width : Z)
  : result Interval :=
  if String.eqb anchor "start" then
    Ok (mkInterval (chrom interval) (start interval) (start interval + width)
          (fields interval))
  else if String.eqb anchor "end" then
    Ok (mkInterval (chrom interval) (stop interval - width) (stop interval)
          (fields interval))
  else if String.eqb anchor "center" then
    let s := ((start interval + stop interval - width) / 2)%Z in
    Ok (mkInterval (chrom interval) s (s + width) (fields interval))
  else Raise (Exception "anchor must be one of 'start', 'end', 'center'").

(** A BED interval from typed fields: chromosome, start and end lead. *)
Definition bed_interval (l : list cell) : result Interval :=
  match l with
  | CStr c :: CInt s :: CInt e :: _ => Ok (mkInterval c s e l)
  | _ => Raise (MalformedBedLineError "expected chrom, start, end")
  end.

(** Equality of cells of the same kind. *)
Definition cell_eqb (a b : cell) : bool :=
  match a, b with
  | CStr s, CStr t => String.eqb s t
  | CInt x, CInt y => Z.eqb x y
  | CBool x, CBool y => Bool.eqb x y
  | _, _ => false
  end.

(** A reader over a fixed set of parsed files; [nrows] truncates. *)
Definition read_parsed (files : list (string * DataFrame)) (path : string)
    (nrows : option nat) (dtype : option (list (nat * option pytype)))
  : result DataFrame :=
  match dict_get files path with
  | Some rows =>
      match rows with
      | [] => Raise (EmptyDataError "No columns to parse from file")
      | _ => Ok (match nrows with Some n => firstn n rows | None => rows end)
      end
  | None => Raise (EmptyDataError "No such file")
  end.

(** A reference cast to [float64], which is also what numpy makes of the
    dtype [None]: integers and booleans become floats, floats stay, and a
    string is read when it is an integer literal (other strings are outside
    this stand-in and are refused as unreadable). *)
Definition to_float64 (c : cell) : result cell :=
  match c with
  | CInt z => Ok (CFloat (Ffinite z 0))
  | CBool b => Ok (CFloat (Ffinite (if b then 1 else 0) 0))
  | CFloat x => Ok (CFloat x)
  | CStr s =>
      match int_of_str s with
      | Some z => Ok (CFloat (Ffinite z 0))
      | None => Raise (ValueError "could not convert string to float")
      end
  end.

Definition to_int (c : cell) : result cell :=
  match c with
  | CInt z => Ok (CInt z)
  | CBool b => Ok (CInt (if b then 1 else 0))
  | CFloat (Ffinite m 0) => Ok (CInt m)
  | CFloat _ => Raise (ValueError "cannot convert float to integer")
  | CStr s =>
      match int_of_str s with
      | Some z => Ok (CInt z)
      | None => Raise (ValueError "invalid literal for int()")
      end
  end.

Definition to_bool (c : cell) : result cell :=
  match c with
  | CInt z => Ok (CBool (negb (Z.eqb z 0)))
  | CBool b => Ok (CBool b)
  | CFloat (Ffinite m _) => Ok (CBool (negb (Z.eqb m 0)))
  | CFloat _ => Ok (CBool true)
  | CStr s => Ok (CBool (negb (String.eqb s "")))
  end.

Definition to_str (c : cell) : result cell :=
  match c with
  | CStr s => Ok (CStr s)
  | CInt z => Ok (CStr (str z))
  | CBool b => Ok (CStr (if b then "True" else "False"))
  | CFloat _ => Raise (TypeError "float formatting is outside the reference cast")
  end.

(** The reference [astype]: cell by cell, [None] standing for [float64]. *)
Definition astype_model (dtype : option pytype) (values : list cell)
  : result (list cell) :=
  match dtype with
  | None | Some py_float => mapM to_float64 values
  | Some py_int => mapM to_int values
  | Some py_bool => mapM to_bool values
  | Some py_str => mapM to_str values
  | Some (py_other _ _ _) => Raise (TypeError "data type not understood")
  end.

(** The reference constructor of the extractor: the FASTA files of
    [genomes] can be opened, any other path cannot. *)
Definition open_fasta (genomes : list string) (fasta_file : string)
    (use_strand force_upper : bool) : result FastaStringExtractor :=
  if existsb (String.eqb fasta_file) genomes
  then Ok (mkFastaStringExtractor fasta_file use_strand force_upper)
  else Raise (FastaNotFoundError fasta_file).

(** A genome of [N]s: the extracted string has the length of the interval. *)
Definition extract_Ns (e : FastaStringExtractor) (interval : Interval) : result string :=
  Ok (String.concat "" (repeat "N" (Z.to_nat (stop interval - start interval)))).

Definition reference_lib (files : list (string * DataFrame)) (genomes : list string)
  : Collaborators :=
  {| read_table := read_parsed files;
     np_eq := cell_eqb;
     astype := astype_model;
     to_scalar := fun c => c;
     create_interval_from_list := bed_interval;
     new_FastaStringExtractor := open_fasta genomes;
     extract := extract_Ns;
     resize_interval := resize_interval_model |}.

(** The table of the design's example scenario, and three more. *)
Definition example_files : list (string * DataFrame) :=
  [("intervals.tsv",
    [[CStr "chr1"; CInt 10; CInt 20; CInt 1];
     [CStr "chr1"; CInt 30; CInt 35; CInt 0]]);
   ("numeric.tsv",
    [[CStr "1"; CInt 100; CInt 200];
     [CStr "2"; CInt 300; CInt 400]]);
   ("masked.tsv",
    [[CStr "chr1"; CInt 0; CInt 10; CInt 1; CInt (-1)];
     [CStr "chr2"; CInt 0; CInt 10; CInt (-1); CInt (-1)];
     [CStr "chr3"; CInt 0; CInt 10; CInt 0; CInt 1]]);
   ("short.tsv",
    [[CStr "chr1"; CInt 10]])].

Definition example_lib : Collaborators := reference_lib example_files ["genome.fa"].

(** The interval table of ["intervals.tsv"] with integer labels, and the
    string dataset over it. *)
Definition example_bed : BedDataset :=
  mkBedDataset "intervals.tsv" 3 false (Some py_int) None None None 1
    [[CStr "chr1"; CInt 10; CInt 20; CInt 1];
     [CStr "chr1"; CInt 30; CInt 35; CInt 0]].

Definition example_dataset (seq_len : option Z) (anchor : option string)
  : SeqStringDataset :=
  mkSeqStringDataset false "intervals.tsv" "genome.fa" seq_len false true anchor
    example_bed None.

(** The same dataset over a FASTA file that cannot be opened. *)
Definition unreadable_dataset (seq_len : option Z) (anchor : option string)
  : SeqStringDataset :=
  mkSeqStringDataset false "intervals.tsv" "missing.fa" seq_len false true anchor
    example_bed None.


(** The one-hot dataset over it, with a dummy axis last. *)
Definition example_seq_dataset : SeqDataset :=
  mkSeqDataset 1 (Some 2) ["A"; "C"; "G"; "T"] (example_dataset None None)
    [OneHot ["A"; "C"; "G"; "T"]; DummyAxis (Some 2); SwapAxes 1 1].

(** The interval table of ["numeric.tsv"], which has no task column, under
    the mask [0]: no row is left. *)
Definition example_emptied_bed : BedDataset :=
  mkBedDataset "numeric.tsv" 3 false None (Some (CInt 0)) None None 0 [].

(** The interval table of ["masked.tsv"] under the mask [-1] without
    chromosome [chr3]. *)
Definition example_masked_bed : BedDataset :=
  mkBedDataset "masked.tsv" 3 false None (Some (CInt (-1))) None (Some ["chr3"]) 2
    [[CStr "chr1"; CInt 0; CInt 10; CInt 1; CInt (-1)]].

(** ** Vocabulary of the statements *)

(** The message of pandas for a position outside the frame. *)
Definition out_of_bounds : exn :=
  IndexError "single positional indexer is out-of-bounds".

(** [subseq l1 l2]: [l1] is [l2] with some entries removed, the others in
    their order. *)
Inductive subseq {A : Type} : list A -> list A -> Prop :=
| subseq_nil : subseq [] []
| subseq_drop : forall x l1 l2, subseq l1 l2 -> subseq l1 (x :: l2)
| subseq_keep : forall x l1 l2, subseq l1 l2 -> subseq (x :: l1) (x :: l2).

(** The chromosome of a row is one of [names]. *)
Definition chrom_isin (names : list string) (r : list cell) : bool :=
  match r with
  | CStr s :: _ => existsb (String.eqb s) names
  | _ => false
  end.

(** What the inclusion and exclusion lists let through. *)
Definition chrom_allowed (incl excl : option (list string)) (r : list cell) : bool :=
  match incl with Some names => chrom_isin names r | None => true end
  && match excl with Some names => negb (chrom_isin names r) | None => true end.

(** The row with [g] applied to its chromosome. *)
Definition map_chrom (g : string -> string) (r : list cell) : list cell :=
  match r with
  | CStr s :: rest => CStr (g s) :: rest
  | _ => r
  end.

(** Column 0 of every row holds a string, as [read_table] leaves it under
    dtype [str]. *)
Definition str_col0 (r : list cell) : Prop := exists s rest, r = CStr s :: rest.

(** The sample built from a table row, the interval extracted and its
    sequence. *)
Definition sample_of (interval : Interval) (labs : labels) (seq : string) (idx : Z)
  : Sample :=
  mkSample (np_array seq) labs
    (mkMetadata (mkGenomicRanges (chrom interval) (start interval) (stop interval)
                   (str idx))).

(** A row before and after the normalisation: same cells after column 0,
    same number of cells. *)
Definition same_but_col0 (r r' : list cell) : Prop :=
  tl r' = tl r /\ List.length r' = List.length r.

(** ** Properties *)

Lemma bind_Ok {A B : Type} (r : result A) (k : A -> result B) (b : B) :
  bind r k = Ok b -> exists a, r = Ok a /\ k a = Ok b.
Proof.
  destruct r as [a|e]; simpl; intros H; [exists a; auto | discriminate].
Qed.

Lemma subseq_filter {A : Type} (f : A -> bool) (l : list A) : subseq (filter f l) l.
Proof.
  induction l as [|x l IH]; simpl; [apply subseq_nil|].
  destruct (f x); [apply subseq_keep | apply subseq_drop]; exact IH.
Qed.

Lemma getitem_mask_map {A : Type} (f : A -> bool) (l : list A) :
  getitem_mask l (map f l) = Ok (filter f l).
Proof.
  induction l as [|x l IH]; simpl; [reflexivity|].
  rewrite IH; simpl. destruct (f x); reflexivity.
Qed.

Lemma mapM_length {A B : Type} (f : A -> result B) (l : list A) (l' : list B) :
  mapM f l = Ok l' -> List.length l' = List.length l.
Proof.
  revert l'; induction l as [|x l IH]; simpl; intros l' H.
  - inversion H; reflexivity.
  - apply bind_Ok in H; destruct H as [y [_ H]].
    apply bind_Ok in H; destruct H as [ys [Hys H]].
    inversion H; subst; simpl; f_equal; auto.
Qed.

Lemma mapM_ext_Ok {A B : Type} (f : A -> result B) (g : A -> B) (l : list A) :
  Forall (fun x => f x = Ok (g x)) l -> mapM f l = Ok (map g l).
Proof.
  induction 1 as [|x l Hx _ IH]; simpl; [reflexivity|].
  rewrite Hx; simpl. rewrite IH; reflexivity.
Qed.

Lemma mapM_Ok_map {A B : Type} (f : A -> result B) (g : A -> B) (l : list A) (l' : list B) :
  (forall x y, f x = Ok y -> y = g x) -> mapM f l = Ok l' -> l' = map g l.
Proof.
  intros Hfg; revert l'; induction l as [|x l IH]; simpl; intros l' H.
  - inversion H; reflexivity.
  - apply bind_Ok in H; destruct H as [y [Hy H]].
    apply bind_Ok in H; destruct H as [ys [Hys H]].
    inversion H; subst. rewrite (Hfg _ _ Hy), (IH _ Hys); reflexivity.
Qed.

Lemma to_int_not_Pos_Nil (n : Z) : Z.to_int n <> Decimal.Pos Decimal.Nil.
Proof.
  destruct n as [|p|p]; simpl; try discriminate.
  intros H; injection H as H'. exact (DecimalPos.Unsigned.to_uint_nonnil p H').
Qed.

Lemma to_int_not_Neg_Nil (n : Z) : Z.to_int n <> Decimal.Neg Decimal.Nil.
Proof.
  destruct n as [|p|p]; simpl; try discriminate.
  intros H; injection H as H'. exact (DecimalPos.Unsigned.to_uint_nonnil p H').
Qed.

(** [str] writes a decimal literal that reads back as the same integer. *)
Lemma str_roundtrip (n : Z) : int_of_str (str n) = Some n.
Proof.
  unfold int_of_str, str.
  rewrite NilZero.isi by (apply to_int_not_Pos_Nil || apply to_int_not_Neg_Nil).
  simpl. rewrite DecimalZ.of_to. reflexivity.
Qed.

Lemma substring_all (s : string) : String.substring 0 (String.length s) s = s.
Proof. induction s as [|c s IH]; simpl; [reflexivity | rewrite IH; reflexivity]. Qed.

Lemma re_sub_chr_strips (t : string) : re_sub_chr ("chr" ++ t) = t.
Proof.
  unfold re_sub_chr. simpl.
  replace (String.prefix "" t) with true by (destruct t; reflexivity).
  rewrite Nat.sub_0_r. apply substring_all.
Qed.

Lemma re_sub_chr_keeps (s : string) : startswith s "chr" = false -> re_sub_chr s = s.
Proof. unfold startswith, re_sub_chr. intros ->. reflexivity. Qed.

Lemma filter_andb {A : Type} (f g : A -> bool) (l : list A) :
  filter g (filter f l) = filter (fun x => f x && g x) l.
Proof.
  induction l as [|x l IH]; simpl; [reflexivity|].
  destruct (f x); simpl; [destruct (g x)|]; rewrite IH; reflexivity.
Qed.

Lemma map_negb_map {A : Type} (f : A -> bool) (l : list A) :
  map negb (map f l) = map (fun x => negb (f x)) l.
Proof. apply map_map. Qed.

Section Construction.

Context {lib : Collaborators}.

(** C1 (the code departs from it): a string alphabet is meant to be turned
    into a list of symbols.  [parse_alphabet] calls [split] with the empty
    separator, which Python refuses, so the construction of the one-hot
    dataset raises [ValueError] for every string alphabet, the default
    ["ACGT"] and the preset names included, whatever the other arguments. *)
Theorem SeqDataset_init_str_alphabet_raises
    (intervals_file fasta_file : string) (num_chr_fasta : bool)
    (label_dtype : dtype_arg) (required_seq_len : option Z) (use_strand : bool)
    (auto_resize : option string) (alphabet_axis : nat) (dummy_axis : option nat)
    (s : string) :
  parse_alphabet (AlphaStr s) = Raise (ValueError "empty separator") /\
  SeqDataset_init intervals_file fasta_file num_chr_fasta label_dtype
    required_seq_len use_strand auto_resize alphabet_axis dummy_axis (AlphaStr s)
  = Raise (ValueError "empty separator").
Proof.
  split; reflexivity.
Qed.

(** C2: with [df_peek] the one-row frame read first and
    [n_tasks = df_peek.shape[1] - bed_columns], the construction of the
    interval table fails at the assertion when [n_tasks < 0], a failure of
    the configuration class, and goes on to load the table when
    [n_tasks >= 0]. *)
Theorem BedDataset_init_n_tasks_check
    (tsv_file : string) (label_dtype : option pytype) (bed_columns : nat)
    (num_chr : bool) (ambiguous_mask : option cell)
    (incl_chromosomes excl_chromosomes : option (list string))
    (df_peek : DataFrame) :
  read_table tsv_file (Some 1) None = Ok df_peek ->
  let n_tasks := (Z.of_nat (ncols df_peek) - Z.of_nat bed_columns)%Z in
  ((n_tasks < 0)%Z ->
     BedDataset_init tsv_file label_dtype bed_columns num_chr ambiguous_mask
       incl_chromosomes excl_chromosomes = Raise AssertionError
     /\ classify AssertionError = ConfigurationError) /\
  ((0 <= n_tasks)%Z ->
     BedDataset_init tsv_file label_dtype bed_columns num_chr ambiguous_mask
       incl_chromosomes excl_chromosomes
     = BedDataset_load tsv_file label_dtype bed_columns num_chr ambiguous_mask
         incl_chromosomes excl_chromosomes n_tasks).
Proof.
  intros Hpeek n_tasks. unfold BedDataset_init. rewrite Hpeek; simpl.
  fold n_tasks. split; intros Hn.
  - split; [|reflexivity].
    assert (E : (0 <=? n_tasks)%Z = false) by (apply Z.leb_gt; exact Hn).
    rewrite E; reflexivity.
  - assert (E : (0 <=? n_tasks)%Z = true) by (apply Z.leb_le; exact Hn).
    rewrite E; reflexivity.
Qed.


Lemma assign_col0_str (f : cell -> result cell) (g : string -> string) (df : DataFrame) :
  (forall s, f (CStr s) = Ok (CStr (g s))) ->
  Forall str_col0 df ->
  assign_col0 f df = Ok (map (map_chrom g) df).
Proof.
  intros Hf Hdf. unfold assign_col0. apply mapM_ext_Ok.
  eapply Forall_impl; [|exact Hdf].
  intros r [s [rest ->]]. rewrite Hf. reflexivity.
Qed.

Lemma map_chrom_id (df : DataFrame) : map (map_chrom (fun s => s)) df = df.
Proof.
  induction df as [|r df IH]; simpl; [reflexivity|]. rewrite IH. f_equal.
  destruct r as [|[s|z|x|b] rest]; reflexivity.
Qed.

Lemma normalize_chr_length (num_chr : bool) (df df' : DataFrame) :
  normalize_chr num_chr df = Ok df' -> List.length df' = List.length df.
Proof.
  unfold normalize_chr. destruct num_chr; simpl.
  - intros H. apply bind_Ok in H. destruct H as [d [H1 H2]].
    inversion H2; subst d; clear H2.
    apply bind_Ok in H1. destruct H1 as [b [_ H1]].
    destruct b; [apply (mapM_length _ _ H1) | inversion H1; reflexivity].
  - intros H. apply bind_Ok in H. destruct H as [b [_ H]].
    destruct b; simpl in H; [inversion H; reflexivity | apply (mapM_length _ _ H)].
Qed.

(** The normalisation, given what the sniff of row 0 answers. *)
Lemma normalize_chr_by_sniff (num_chr : bool) (df : DataFrame) (b : bool) :
  Forall str_col0 df ->
  first_row_startswith_chr df = Ok b ->
  normalize_chr num_chr df
  = Ok (map (map_chrom (match num_chr, b with
                        | true, true => re_sub_chr
                        | false, false => String.append "chr"
                        | _, _ => fun s => s
                        end)) df)
  /\ (forall t, re_sub_chr ("chr" ++ t) = t)
  /\ (forall s, startswith s "chr" = false -> re_sub_chr s = s)
  /\ (num_chr <> b -> normalize_chr num_chr df = Ok df).
Proof.
  intros Hdf Hb.
  assert (E : normalize_chr num_chr df
              = Ok (map (map_chrom (match num_chr, b with
                                    | true, true => re_sub_chr
                                    | false, false => String.append "chr"
                                    | _, _ => fun s => s
                                    end)) df)).
  { unfold normalize_chr. destruct num_chr, b; simpl; rewrite Hb; simpl.
    - rewrite (assign_col0_str str_replace_chr re_sub_chr) by (auto; reflexivity).
      reflexivity.
    - rewrite map_chrom_id. reflexivity.
    - rewrite map_chrom_id. reflexivity.
    - apply assign_col0_str; auto. }
  split; [exact E|]. split; [exact re_sub_chr_strips|].
  split; [exact re_sub_chr_keeps|].
  intros Hne. rewrite E.
  destruct num_chr, b; try congruence; rewrite map_chrom_id; reflexivity.
Qed.

Lemma prefix_chr_iff (s : string) :
  String.prefix "chr" s = true <-> exists t, s = ("chr" ++ t)%string.
Proof.
  split.
  - intros H.
    destruct s as [|a s]; [discriminate|]. cbn [String.prefix] in H.
    destruct (ascii_dec "c" a) as [E|]; [subst a|discriminate].
    destruct s as [|b s]; [discriminate|]. cbn [String.prefix] in H.
    destruct (ascii_dec "h" b) as [E|]; [subst b|discriminate].
    destruct s as [|c s]; [discriminate|]. cbn [String.prefix] in H.
    destruct (ascii_dec "r" c) as [E|]; [subst c|discriminate].
    exists s. reflexivity.
  - intros [t ->]. simpl. destruct t; reflexivity.
Qed.

Lemma prefix_chr_false (s : string) :
  (forall t, s <> ("chr" ++ t)%string) -> String.prefix "chr" s = false.
Proof.
  intros H. destruct (String.prefix "chr" s) eqn:E; [|reflexivity].
  apply prefix_chr_iff in E. destruct E as [t Ht]. elim (H t Ht).
Qed.

(** C5: the normalisation is decided by row 0 alone.  On a table whose
    column 0 holds strings and whose row 0 has the chromosome [c0]: when
    [c0] starts with ["chr"], [num_chr] true removes a leading ["chr"] from
    column 0 of every row and [num_chr] false leaves the table unchanged;
    when [c0] does not start with ["chr"], [num_chr] false puts ["chr"]
    before column 0 of every row and [num_chr] true leaves the table
    unchanged.  The chromosomes of the other rows play no part in the
    choice, and the other columns are never touched. *)
Theorem normalize_chr_sniffs_row0
    (c0 : string) (rest0 : list cell) (rows : DataFrame) :
  Forall str_col0 rows ->
  let df := (CStr c0 :: rest0) :: rows in
  ((exists t, c0 = ("chr" ++ t)%string) ->
     normalize_chr true df = Ok (map (map_chrom re_sub_chr) df) /\
     normalize_chr false df = Ok df) /\
  ((forall t, c0 <> ("chr" ++ t)%string) ->
     normalize_chr false df = Ok (map (map_chrom (String.append "chr")) df) /\
     normalize_chr true df = Ok df) /\
  (forall t, re_sub_chr ("chr" ++ t) = t) /\
  (forall s, (forall t, s <> ("chr" ++ t)%string) -> re_sub_chr s = s).
Proof.
  intros Hrows df.
  assert (Hdf : Forall str_col0 df)
    by (constructor; [exists c0, rest0; reflexivity | exact Hrows]).
  assert (Hb : first_row_startswith_chr df = Ok (String.prefix "chr" c0))
    by reflexivity.
  split; [|split; [|split]].
  - intros Hc. apply prefix_chr_iff in Hc. rewrite Hc in Hb.
    split.
    + exact (proj1 (normalize_chr_by_sniff true Hdf Hb)).
    + apply (proj2 (proj2 (proj2 (normalize_chr_by_sniff false Hdf Hb)))).
      discriminate.
  - intros Hc. apply prefix_chr_false in Hc. rewrite Hc in Hb.
    split.
    + exact (proj1 (normalize_chr_by_sniff false Hdf Hb)).
    + apply (proj2 (proj2 (proj2 (normalize_chr_by_sniff true Hdf Hb)))).
      discriminate.
  - exact re_sub_chr_strips.
  - intros s Hs. apply re_sub_chr_keeps. unfold startswith.
    apply prefix_chr_false. exact Hs.
Qed.

Lemma isin_Ok (names : list string) (df : DataFrame) (mask : list bool) :
  isin names df = Ok mask -> mask = map (chrom_isin names) df.
Proof.
  unfold isin. apply mapM_Ok_map.
  intros r y H. destruct r as [|c rest]; simpl in H; [discriminate|].
  inversion H; subst. destruct c; reflexivity.
Qed.

Lemma keep_incl_Ok (incl : option (list string)) (df df' : DataFrame) :
  keep_incl incl df = Ok df' ->
  df' = filter (fun r => match incl with
                         | Some names => chrom_isin names r
                         | None => true
                         end) df.
Proof.
  destruct incl as [names|]; simpl; intros H.
  - apply bind_Ok in H. destruct H as [mask [Hm H]].
    apply isin_Ok in Hm; subst mask. rewrite getitem_mask_map in H.
    inversion H; reflexivity.
  - inversion H; subst. symmetry. apply forallb_filter_id.
    apply forallb_forall; reflexivity.
Qed.

Lemma drop_excl_Ok (excl : option (list string)) (df df' : DataFrame) :
  drop_excl excl df = Ok df' ->
  df' = filter (fun r => match excl with
                         | Some names => negb (chrom_isin names r)
                         | None => true
                         end) df.
Proof.
  destruct excl as [names|]; simpl; intros H.
  - apply bind_Ok in H. destruct H as [mask [Hm H]].
    apply isin_Ok in Hm; subst mask.
    rewrite map_negb_map, getitem_mask_map in H.
    inversion H; reflexivity.
  - inversion H; subst. symmetry. apply forallb_filter_id.
    apply forallb_forall; reflexivity.
Qed.

Lemma BedDataset_init_Ok
    (tsv : string) (dtype : option pytype) (bed_cols : nat) (nc : bool)
    (mask : option cell) (incl excl : option (list string)) (ds : BedDataset) :
  BedDataset_init tsv dtype bed_cols nc mask incl excl = Ok ds ->
  exists raw df0 df1 df2,
    read_table tsv None (Some (dtype_dict bed_cols dtype (n_tasks ds))) = Ok raw /\
    normalize_chr nc raw = Ok df0 /\
    drop_ambiguous bed_cols mask df0 = Ok df1 /\
    keep_incl incl df1 = Ok df2 /\
    drop_excl excl df2 = Ok (df ds) /\
    ds = mkBedDataset tsv bed_cols nc dtype mask incl excl (n_tasks ds) (df ds).
Proof.
  unfold BedDataset_init. intros H.
  apply bind_Ok in H. destruct H as [df_peek [_ H]].
  apply bind_Ok in H. destruct H as [_ [_ H]].
  unfold BedDataset_load in H.
  apply bind_Ok in H. destruct H as [raw [Hraw H]].
  apply bind_Ok in H. destruct H as [df0 [H0 H]].
  apply bind_Ok in H. destruct H as [df1 [H1 H]].
  apply bind_Ok in H. destruct H as [df2 [H2 H]].
  apply bind_Ok in H. destruct H as [df3 [H3 H]].
  inversion H; subst ds; simpl.
  exists raw, df0, df1, df2. repeat split; assumption.
Qed.

(** C6: with an ambiguous mask set, the mask filter drops exactly the rows
    all of whose task cells equal the mask, so a row with a task cell that
    differs is kept by it; the inclusion and exclusion filters then keep the
    rows whose chromosome they allow; and the table of the constructed
    dataset is the table read from the file (after normalisation) with rows
    removed and none moved. *)
Theorem BedDataset_init_filters
    (tsv : string) (dtype : option pytype) (bed_cols : nat) (nc : bool)
    (m : cell) (incl excl : option (list string)) (ds : BedDataset) :
  BedDataset_init tsv dtype bed_cols nc (Some m) incl excl = Ok ds ->
  exists raw df0 df1,
    read_table tsv None (Some (dtype_dict bed_cols dtype (n_tasks ds))) = Ok raw /\
    normalize_chr nc raw = Ok df0 /\
    drop_ambiguous bed_cols (Some m) df0 = Ok df1 /\
    df1 = filter (fun r => negb (row_ambiguous bed_cols m r)) df0 /\
    (forall r, In r df0 -> (In r df1 <-> row_ambiguous bed_cols m r = false)) /\
    (forall r c, In r df0 -> In c (skipn bed_cols r) -> np_eq c m = false ->
                 In r df1) /\
    df ds = filter (chrom_allowed incl excl) df1 /\
    df ds = filter (fun r => negb (row_ambiguous bed_cols m r)
                             && chrom_allowed incl excl r) df0 /\
    subseq (df ds) df0.
Proof.
  intros H. apply BedDataset_init_Ok in H.
  destruct H as [raw [df0 [df1 [df2 [Hraw [H0 [H1 [H2 [H3 _]]]]]]]]].
  exists raw, df0, df1.
  assert (E1 : df1 = filter (fun r => negb (row_ambiguous bed_cols m r)) df0).
  { simpl in H1. unfold all_ambiguous in H1.
    rewrite map_negb_map, getitem_mask_map in H1. inversion H1; reflexivity. }
  assert (E3 : df ds = filter (chrom_allowed incl excl) df1).
  { apply drop_excl_Ok in H3. apply keep_incl_Ok in H2.
    rewrite H3, H2, filter_andb. reflexivity. }
  assert (A : forall r, In r df0 -> (In r df1 <-> row_ambiguous bed_cols m r = false)).
  { intros r Hr. rewrite E1, filter_In, negb_true_iff. tauto. }
  repeat split; try assumption.
  - apply A; assumption.
  - apply A; assumption.
  - intros r c Hr Hc Hne. apply A; [assumption|].
    unfold row_ambiguous. apply not_true_is_false. intros Hall.
    rewrite forallb_forall in Hall. specialize (Hall c Hc). congruence.
  - rewrite E3, E1, filter_andb. reflexivity.
  - rewrite E3, E1, filter_andb. apply subseq_filter.
Qed.

(** C10: the string dataset builds its interval table with three BED
    columns, no ambiguous mask, no inclusion list and no exclusion list, the
    chromosome flag and the parsed label dtype being the only options passed
    on; the table it holds is the table read from the file after the
    chromosome normalisation, and its length is the number of rows read. *)
Theorem SeqStringDataset_init_table_defaults
    (intervals fasta : string) (num_chr_flag : bool) (dtype_name : dtype_arg)
    (seq_len : option Z) (strand upper : bool) (anchor : option string)
    (ds : SeqStringDataset) :
  SeqStringDataset_init intervals fasta num_chr_flag dtype_name seq_len strand
    upper anchor = Ok ds ->
  bed_columns (bed ds) = 3 /\
  ambiguous_mask (bed ds) = None /\
  incl_chromosomes (bed ds) = None /\
  excl_chromosomes (bed ds) = None /\
  num_chr (bed ds) = num_chr_flag /\
  parse_dtype dtype_name = Ok (label_dtype (bed ds)) /\
  exists raw,
    read_table intervals None
      (Some (dtype_dict 3 (label_dtype (bed ds)) (n_tasks (bed ds)))) = Ok raw /\
    normalize_chr num_chr_flag raw = Ok (df (bed ds)) /\
    SeqStringDataset_len ds = List.length raw.
Proof.
  unfold SeqStringDataset_init. intros H.
  apply bind_Ok in H. destruct H as [dtype [Hd H]].
  apply bind_Ok in H. destruct H as [b [Hb H]].
  inversion H; subst ds; clear H. cbn [bed].
  apply BedDataset_init_Ok in Hb.
  destruct Hb as [raw [df0 [df1 [df2 [Hraw [H0 [H1 [H2 [H3 Hrec]]]]]]]]].
  simpl in H1, H2, H3.
  injection H1 as <-. injection H2 as <-. injection H3 as E0.
  rewrite E0 in H0.
  assert (Hf : bed_columns b = 3 /\ ambiguous_mask b = None /\
               incl_chromosomes b = None /\ excl_chromosomes b = None /\
               num_chr b = num_chr_flag /\ label_dtype b = dtype)
    by (rewrite Hrec; repeat split; reflexivity).
  destruct Hf as [F1 [F2 [F3 [F4 [F5 F6]]]]].
  repeat split; try assumption.
  - rewrite F6; exact Hd.
  - exists raw. rewrite F6. split; [exact Hraw|]. split; [exact H0|].
    unfold SeqStringDataset_len, BedDataset_len. cbn [bed].
    apply (normalize_chr_length _ _ H0).
Qed.


End Construction.

Section Lookup.

Context {lib : Collaborators}.

Lemma SeqStringDataset_getitem_eq (self : SeqStringDataset) (idx : Z) :
  snd (SeqStringDataset_getitem self idx)
  = (e <- get_extractor self ;;
     il <- BedDataset_getitem (bed self) idx ;;
     interval <- checked_interval self (fst il) ;;
     seq <- extract e interval ;;
     Ok (sample_of interval (snd il) seq idx)).
Proof.
  unfold SeqStringDataset_getitem. destruct (get_extractor self); reflexivity.
Qed.

(** C4, as amended: when a required length is set and the interval of the
    row has another length, the lookup first obtains the extractor handle,
    and fails with the constructor's error when the handle cannot be built.
    With the handle at hand, it raises the length-mismatch [Exception], a
    failure of the configuration class, if no anchor is set; with an anchor
    it calls [resize_interval] on the interval, the anchor and the required
    length, and the interval extracted and reported is the resized one. *)
Theorem getitem_length_mismatch
    (self : SeqStringDataset) (idx : Z) (interval : Interval) (labs : labels)
    (len : Z) :
  BedDataset_getitem (bed self) idx = Ok (interval, labs) ->
  required_seq_len self = Some len ->
  (stop interval - start interval)%Z <> len ->
  (auto_resize self = None ->
     snd (SeqStringDataset_getitem self idx)
     = (get_extractor self ;;; Raise length_mismatch)
     /\ (forall e, get_extractor self = Ok e ->
           snd (SeqStringDataset_getitem self idx) = Raise length_mismatch)
     /\ (forall err, get_extractor self = Raise err ->
           snd (SeqStringDataset_getitem self idx) = Raise err)
     /\ classify length_mismatch = ConfigurationError) /\
  (forall anchor, auto_resize self = Some anchor ->
     checked_interval self interval = resize_interval interval anchor len /\
     snd (SeqStringDataset_getitem self idx)
     = (e <- get_extractor self ;;
        resized <- resize_interval interval anchor len ;;
        seq <- extract e resized ;;
        Ok (sample_of resized labs seq idx))).
Proof.
  intros Hrow Hlen Hne.
  assert (E : (stop interval - start interval =? len)%Z = false)
    by (apply Z.eqb_neq; exact Hne).
  split.
  - intros Hnone.
    assert (C : checked_interval self interval = Raise length_mismatch)
      by (unfold checked_interval; rewrite Hlen, E, Hnone; reflexivity).
    assert (G : snd (SeqStringDataset_getitem self idx)
                = (get_extractor self ;;; Raise length_mismatch)).
    { rewrite SeqStringDataset_getitem_eq.
      destruct (get_extractor self) as [e|err]; [|reflexivity].
      cbn [bind]. rewrite Hrow. cbn [bind fst snd]. rewrite C. reflexivity. }
    split; [exact G|]. split; [|split; [|reflexivity]].
    + intros e He. rewrite G, He. reflexivity.
    + intros err He. rewrite G, He. reflexivity.
  - intros anchor Ha.
    assert (C : checked_interval self interval = resize_interval interval anchor len)
      by (unfold checked_interval; rewrite Hlen, E, Ha; reflexivity).
    split; [exact C|].
    rewrite SeqStringDataset_getitem_eq.
    destruct (get_extractor self) as [e|err]; [|reflexivity].
    cbn [bind]. rewrite Hrow. cbn [bind fst snd]. rewrite C. reflexivity.
Qed.

(** C7: when no length is required, or the interval of the row already has
    the required length, the interval goes to the extractor as the table
    returned it, whatever the anchor: [resize_interval] is not called, and
    the sample reports the chromosome, start and stop of the table's
    interval.  The extractor is the handle the lookup obtained first. *)
Theorem getitem_exact_length_unchanged
    (self : SeqStringDataset) (idx : Z) (interval : Interval) (labs : labels) :
  BedDataset_getitem (bed self) idx = Ok (interval, labs) ->
  required_seq_len self = None \/
  required_seq_len self = Some (stop interval - start interval)%Z ->
  checked_interval self interval = Ok interval /\
  snd (SeqStringDataset_getitem self idx)
  = (e <- get_extractor self ;;
     seq <- extract e interval ;;
     Ok (mkSample (np_array seq) labs
           (mkMetadata (mkGenomicRanges (chrom interval) (start interval)
                          (stop interval) (str idx))))).
Proof.
  intros Hrow Hlen.
  assert (C : checked_interval self interval = Ok interval).
  { unfold checked_interval. destruct Hlen as [-> | ->]; [reflexivity|].
    rewrite Z.eqb_refl. reflexivity. }
  split; [exact C|].
  rewrite SeqStringDataset_getitem_eq.
  destruct (get_extractor self) as [e|err]; [|reflexivity].
  cbn [bind]. rewrite Hrow. cbn [bind fst snd]. rewrite C. reflexivity.
Qed.

(** C9: a lookup returns a sample exactly when the extractor handle is
    obtained and the table lookup, the length check and the extraction
    succeed; the sample then reports the chromosome, start and stop of the
    interval that was extracted (the resized one when a resize took place)
    and its id is [str(idx)], the decimal literal that reads back as
    [idx]. *)
Theorem getitem_metadata (self : SeqStringDataset) (idx : Z) :
  (forall sample,
     snd (SeqStringDataset_getitem self idx) = Ok sample ->
     exists e interval0 labs interval seq,
       get_extractor self = Ok e /\
       BedDataset_getitem (bed self) idx = Ok (interval0, labs) /\
       checked_interval self interval0 = Ok interval /\
       extract e interval = Ok seq /\
       inputs sample = np_array seq /\
       targets sample = labs /\
       gr_chr (ranges (metadata sample)) = chrom interval /\
       gr_start (ranges (metadata sample)) = start interval /\
       gr_end (ranges (metadata sample)) = stop interval /\
       gr_id (ranges (metadata sample)) = str idx /\
       int_of_str (gr_id (ranges (metadata sample))) = Some idx) /\
  (forall e interval0 labs interval seq,
     get_extractor self = Ok e ->
     BedDataset_getitem (bed self) idx = Ok (interval0, labs) ->
     checked_interval self interval0 = Ok interval ->
     extract e interval = Ok seq ->
     snd (SeqStringDataset_getitem self idx)
     = Ok (mkSample (np_array seq) labs
             (mkMetadata (mkGenomicRanges (chrom interval) (start interval)
                            (stop interval) (str idx))))).
Proof.
  split.
  - intros sample H. rewrite SeqStringDataset_getitem_eq in H.
    apply bind_Ok in H. destruct H as [e [He H]].
    apply bind_Ok in H. destruct H as [[interval0 labs] [Hrow H]].
    apply bind_Ok in H. destruct H as [interval [Hchk H]].
    apply bind_Ok in H. destruct H as [seq [Hseq H]].
    injection H as <-. cbn [fst snd] in *.
    exists e, interval0, labs, interval, seq.
    repeat split; try assumption. simpl. apply str_roundtrip.
  - intros e interval0 labs interval seq He Hrow Hchk Hseq.
    rewrite SeqStringDataset_getitem_eq, He. cbn [bind].
    rewrite Hrow. cbn [bind fst snd].
    rewrite Hchk. cbn [bind]. rewrite Hseq. reflexivity.
Qed.

End Lookup.

(** The reference resizer gives the requested length and keeps its anchor. *)
Lemma resize_interval_model_spec (interval : Interval) (width : Z) :
  (exists r, resize_interval_model interval "start" width = Ok r
             /\ (stop r - start r = width)%Z /\ start r = start interval
             /\ chrom r = chrom interval) /\
  (exists r, resize_interval_model interval "end" width = Ok r
             /\ (stop r - start r = width)%Z /\ stop r = stop interval
             /\ chrom r = chrom interval) /\
  (exists r, resize_interval_model interval "center" width = Ok r
             /\ (stop r - start r = width)%Z
             /\ (2 * start r <= start interval + stop interval - width < 2 * start r + 2)%Z
             /\ chrom r = chrom interval).
Proof.
  unfold resize_interval_model.
  pose proof (Z.div_mod (start interval + stop interval - width) 2 ltac:(lia)) as D.
  pose proof (Z.mod_pos_bound (start interval + stop interval - width) 2 ltac:(lia)) as B.
  split; [|split]; eexists; (split; [reflexivity|]);
    cbn [start stop chrom]; repeat split; lia.
Qed.

Section Encoding.

Context {lib : Collaborators}.

(** C8: the one-hot dataset is built with the transforms [OneHot],
    [DummyAxis], [SwapAxes(1, alphabet_axis)] in this order and applies them
    in this order to the string of the sample.  Without a dummy axis the
    result has two axes (and exists exactly when [alphabet_axis] is 0 or 1);
    with [dummy_axis = 2] and [alphabet_axis = 1] it has three axes, of sizes
    sequence length, alphabet size and one, so the alphabet runs along
    axis 1, and its entries are those of the one-hot matrix. *)
Theorem input_transform_order_and_rank :
  (forall intervals fasta num_chr_flag dtype_name seq_len strand anchor
          axis dummy alph ds,
     SeqDataset_init intervals fasta num_chr_flag dtype_name seq_len strand
       anchor axis dummy alph = Ok ds ->
     input_tranform ds = [OneHot (alphabet ds); DummyAxis dummy; SwapAxes 1 axis]) /\
  (forall self idx,
     snd (SeqDataset_getitem self idx)
     = (ret <- snd (SeqStringDataset_getitem (seq_string_dataset self) idx) ;;
        x <- Compose (input_tranform self) (inputs ret) ;;
        Ok (mkSample x (targets ret) (metadata ret)))) /\
  (forall alph dummy axis seq,
     Compose [OneHot alph; DummyAxis dummy; SwapAxes 1 axis] (np_array seq)
     = (y <- call (DummyAxis dummy) (one_hot seq alph) ;; swapaxes y 1 axis)) /\
  (forall alph axis seq,
     match Compose [OneHot alph; DummyAxis None; SwapAxes 1 axis] (np_array seq) with
     | Ok t => ndim t = 2 /\ (axis < 2)%nat
     | Raise _ => (2 <= axis)%nat
     end) /\
  (forall alph seq,
     exists t,
       Compose [OneHot alph; DummyAxis (Some 2); SwapAxes 1 1] (np_array seq) = Ok t /\
       ndim t = 3 /\
       shape t = [String.length seq; List.length alph; 1] /\
       forall i j, item t [i; j; 0] = item (one_hot seq alph) [i; j]).
Proof.
  split; [|split; [|split; [|split]]].
  - intros until ds. unfold SeqDataset_init. intros H.
    apply bind_Ok in H. destruct H as [a [_ H]].
    apply bind_Ok in H. destruct H as [ssd [_ H]].
    injection H as <-. reflexivity.
  - intros self idx. unfold SeqDataset_getitem.
    destruct (SeqStringDataset_getitem (seq_string_dataset self) idx) as [ssd r].
    reflexivity.
  - intros. reflexivity.
  - intros alph axis seq. destruct axis as [|[|axis]]; cbn.
    + split; [reflexivity | lia].
    + split; [reflexivity | lia].
    + lia.
  - intros alph seq. eexists. split; [reflexivity|].
    split; [reflexivity|]. split; [reflexivity|]. intros i j. reflexivity.
Qed.

End Encoding.

(** ** The theorems at work on the example tables *)

Lemma BedDataset_init_n_tasks_check_witness :
  read_table (Collaborators := example_lib) "short.tsv" (Some 1) None
  = Ok [[CStr "chr1"; CInt 10]] /\
  (Z.of_nat 2 - Z.of_nat 3 < 0)%Z /\
  BedDataset_init (lib := example_lib) "short.tsv" None 3 false None None None
  = Raise AssertionError.
Proof.
  split; [reflexivity|]. split; [simpl; lia|].
  destruct (@BedDataset_init_n_tasks_check example_lib "short.tsv" None 3 false
              None None None [[CStr "chr1"; CInt 10]] eq_refl) as [Hneg _].
  apply Hneg. simpl; lia.
Defined.


Lemma normalize_chr_sniffs_row0_witness :
  (Forall str_col0 [[CStr "chr2"; CInt 30; CInt 35; CInt 0]] /\
   (exists t, "chr1" = ("chr" ++ t)%string) /\
   normalize_chr true
     [[CStr "chr1"; CInt 10; CInt 20; CInt 1]; [CStr "chr2"; CInt 30; CInt 35; CInt 0]]
   = Ok [[CStr "1"; CInt 10; CInt 20; CInt 1]; [CStr "2"; CInt 30; CInt 35; CInt 0]] /\
   normalize_chr false
     [[CStr "chr1"; CInt 10; CInt 20; CInt 1]; [CStr "chr2"; CInt 30; CInt 35; CInt 0]]
   = Ok [[CStr "chr1"; CInt 10; CInt 20; CInt 1]; [CStr "chr2"; CInt 30; CInt 35; CInt 0]]) /\
  (Forall str_col0 [[CStr "chr2"; CInt 300; CInt 400]] /\
   (forall t, "1" <> ("chr" ++ t)%string) /\
   normalize_chr false [[CStr "1"; CInt 100; CInt 200]; [CStr "chr2"; CInt 300; CInt 400]]
   = Ok [[CStr "chr1"; CInt 100; CInt 200]; [CStr "chrchr2"; CInt 300; CInt 400]] /\
   normalize_chr true [[CStr "1"; CInt 100; CInt 200]; [CStr "chr2"; CInt 300; CInt 400]]
   = Ok [[CStr "1"; CInt 100; CInt 200]; [CStr "chr2"; CInt 300; CInt 400]]).
Proof.
  assert (S1 : Forall str_col0 [[CStr "chr2"; CInt 30; CInt 35; CInt 0]])
    by (repeat constructor; unfold str_col0; do 2 eexists; reflexivity).
  assert (P1 : exists t, "chr1" = ("chr" ++ t)%string) by (exists "1"; reflexivity).
  assert (S2 : Forall str_col0 [[CStr "chr2"; CInt 300; CInt 400]])
    by (repeat constructor; unfold str_col0; do 2 eexists; reflexivity).
  assert (P2 : forall t, "1" <> ("chr" ++ t)%string) by (intros t; discriminate).
  split.
  - split; [exact S1|]. split; [exact P1|].
    exact (proj1 (@normalize_chr_sniffs_row0 "chr1" [CInt 10; CInt 20; CInt 1]
                    [[CStr "chr2"; CInt 30; CInt 35; CInt 0]] S1) P1).
  - split; [exact S2|]. split; [exact P2|].
    exact (proj1 (proj2 (@normalize_chr_sniffs_row0 "1" [CInt 100; CInt 200]
                           [[CStr "chr2"; CInt 300; CInt 400]] S2)) P2).
Defined.

Lemma BedDataset_init_filters_witness :
  BedDataset_init (lib := example_lib) "masked.tsv" None 3 false
    (Some (CInt (-1))) None (Some ["chr3"]) = Ok example_masked_bed /\
  exists raw df0 df1,
    read_table (Collaborators := example_lib) "masked.tsv" None
      (Some (dtype_dict 3 None (n_tasks example_masked_bed))) = Ok raw /\
    normalize_chr false raw = Ok df0 /\
    drop_ambiguous (lib := example_lib) 3 (Some (CInt (-1))) df0 = Ok df1 /\
    df1 = filter (fun r => negb (row_ambiguous (lib := example_lib) 3 (CInt (-1)) r)) df0 /\
    (forall r, In r df0 ->
       (In r df1 <-> row_ambiguous (lib := example_lib) 3 (CInt (-1)) r = false)) /\
    (forall r c, In r df0 -> In c (skipn 3 r) ->
       np_eq (Collaborators := example_lib) c (CInt (-1)) = false -> In r df1) /\
    df example_masked_bed = filter (chrom_allowed None (Some ["chr3"])) df1 /\
    df example_masked_bed
    = filter (fun r => negb (row_ambiguous (lib := example_lib) 3 (CInt (-1)) r)
                       && chrom_allowed None (Some ["chr3"]) r) df0 /\
    subseq (df example_masked_bed) df0.
Proof.
  split; [reflexivity|].
  exact (@BedDataset_init_filters example_lib "masked.tsv" None 3 false
           (CInt (-1)) None (Some ["chr3"]) example_masked_bed eq_refl).
Defined.

Lemma SeqStringDataset_init_table_defaults_witness :
  SeqStringDataset_init (lib := example_lib) "intervals.tsv" "genome.fa" false
    (DtName "int") None false true None = Ok (example_dataset None None) /\
  bed_columns (bed (example_dataset None None)) = 3 /\
  ambiguous_mask (bed (example_dataset None None)) = None /\
  incl_chromosomes (bed (example_dataset None None)) = None /\
  excl_chromosomes (bed (example_dataset None None)) = None.
Proof.
  split; [reflexivity|].
  destruct (@SeqStringDataset_init_table_defaults example_lib "intervals.tsv"
              "genome.fa" false (DtName "int") None false true None
              (example_dataset None None) eq_refl)
    as [H1 [H2 [H3 [H4 _]]]].
  repeat split; assumption.
Defined.

Lemma getitem_length_mismatch_witness :
  let self := example_dataset (Some 20%Z) None in
  let interval := mkInterval "chr1" 30 35 [CStr "chr1"; CInt 30; CInt 35] in
  BedDataset_getitem (lib := example_lib) (bed self) 1
  = Ok (interval, LabelsArray [CInt 0]) /\
  required_seq_len self = Some 20%Z /\
  (stop interval - start interval)%Z <> 20%Z /\
  auto_resize self = None /\
  get_extractor (lib := example_lib) self
  = Ok (mkFastaStringExtractor "genome.fa" false true) /\
  snd (SeqStringDataset_getitem (lib := example_lib) self 1) = Raise length_mismatch.
Proof.
  intros self interval.
  assert (Hne : (stop interval - start interval)%Z <> 20%Z) by (simpl; lia).
  split; [reflexivity|]. split; [reflexivity|]. split; [exact Hne|].
  split; [reflexivity|]. split; [reflexivity|].
  destruct (@getitem_length_mismatch example_lib self 1 interval
              (LabelsArray [CInt 0]) 20 eq_refl eq_refl Hne) as [Hnone _].
  exact (proj1 (proj2 (Hnone eq_refl))
           (mkFastaStringExtractor "genome.fa" false true) eq_refl).
Defined.

Lemma getitem_exact_length_unchanged_witness :
  let self := example_dataset (Some 10%Z) (Some "center") in
  let interval := mkInterval "chr1" 10 20 [CStr "chr1"; CInt 10; CInt 20] in
  BedDataset_getitem (lib := example_lib) (bed self) 0
  = Ok (interval, LabelsArray [CInt 1]) /\
  required_seq_len self = Some (stop interval - start interval)%Z /\
  checked_interval (lib := example_lib) self interval = Ok interval.
Proof.
  intros self interval.
  split; [reflexivity|]. split; [reflexivity|].
  exact (proj1 (@getitem_exact_length_unchanged example_lib self 0 interval
                  (LabelsArray [CInt 1]) eq_refl (or_intror eq_refl))).
Defined.

Lemma getitem_metadata_witness :
  let self := example_dataset (Some 20%Z) (Some "center") in
  let e := mkFastaStringExtractor "genome.fa" false true in
  let interval0 := mkInterval "chr1" 30 35 [CStr "chr1"; CInt 30; CInt 35] in
  let interval := mkInterval "chr1" 22 42 [CStr "chr1"; CInt 30; CInt 35] in
  get_extractor (lib := example_lib) self = Ok e /\
  BedDataset_getitem (lib := example_lib) (bed self) (-1)
  = Ok (interval0, LabelsArray [CInt 0]) /\
  checked_interval (lib := example_lib) self interval0 = Ok interval /\
  extract (Collaborators := example_lib) e interval = Ok "NNNNNNNNNNNNNNNNNNNN" /\
  snd (SeqStringDataset_getitem (lib := example_lib) self (-1))
  = Ok (mkSample (np_array "NNNNNNNNNNNNNNNNNNNN") (LabelsArray [CInt 0])
          (mkMetadata (mkGenomicRanges "chr1" 22 42 "-1"))).
Proof.
  intros self e interval0 interval.
  split; [reflexivity|]. split; [reflexivity|]. split; [reflexivity|].
  split; [reflexivity|].
  exact (proj2 (@getitem_metadata example_lib self (-1)) e interval0
           (LabelsArray [CInt 0]) interval "NNNNNNNNNNNNNNNNNNNN"
           eq_refl eq_refl eq_refl eq_refl).
Defined.

Lemma input_transform_order_and_rank_witness :
  SeqDataset_init (lib := example_lib) "intervals.tsv" "genome.fa" false
    (DtName "int") None false None 1 (Some 2) (AlphaList ["A"; "C"; "G"; "T"])
  = Ok example_seq_dataset /\
  input_tranform example_seq_dataset
  = [OneHot (alphabet example_seq_dataset); DummyAxis (Some 2); SwapAxes 1 1].
Proof.
  split; [reflexivity|].
  exact (proj1 (@input_transform_order_and_rank example_lib) "intervals.tsv"
           "genome.fa" false (DtName "int") None false None 1 (Some 2)
           (AlphaList ["A"; "C"; "G"; "T"]) example_seq_dataset eq_refl).
Defined.

(** ** Further properties of the helpers *)

(** X1: [parse_dtype] returns [None] only for [None]; a type it returns
    compares equal to one of the four listed types and is returned again
    when passed back; a name gives one of the four types themselves; another
    object is returned as it is when it equals a listed type (a numpy dtype
    does), and is refused otherwise, with the [Exception] of the module when
    it can be hashed and with [TypeError] when it cannot. *)
Theorem parse_dtype_range :
  (forall d, parse_dtype d = Ok None -> d = DtNone) /\
  (forall d t, parse_dtype d = Ok (Some t) ->
     existsb (fun v => pytype_eqb v t) [py_int; py_str; py_float; py_bool] = true
     /\ parse_dtype (DtType t) = Ok (Some t)) /\
  (forall name t, parse_dtype (DtName name) = Ok (Some t) ->
     In t [py_int; py_str; py_float; py_bool]) /\
  (forall n eqs h,
     parse_dtype (DtType (py_other n eqs h))
     = if existsb (fun k => existsb (scalar_type_eqb k) eqs)
            [scalar_int; scalar_str; scalar_float; scalar_bool]
       then Ok (Some (py_other n eqs h))
       else if h then Raise (dtype_not_recognized n)
            else Raise (TypeError "unhashable type")).
Proof.
  assert (N : forall name t, parse_dtype (DtName name) = Ok (Some t) ->
                In t [py_int; py_str; py_float; py_bool]).
  { intros name t H. unfold parse_dtype, dtypes in H; cbn [dict_get] in H.
    destruct (String.eqb "int" name); [injection H as <-; simpl; tauto|].
    destruct (String.eqb "string" name); [injection H as <-; simpl; tauto|].
    destruct (String.eqb "float" name); [injection H as <-; simpl; tauto|].
    destruct (String.eqb "bool" name); [injection H as <-; simpl; tauto|].
    discriminate. }
  assert (R : forall t,
            existsb (fun v => pytype_eqb v t) [py_int; py_str; py_float; py_bool] = true ->
            parse_dtype (DtType t) = Ok (Some t)).
  { intros t H. unfold parse_dtype.
    change (dict_values dtypes) with [py_int; py_str; py_float; py_bool].
    rewrite H. reflexivity. }
  split; [|split; [|split]].
  - intros [|t|name]; [reflexivity| |]; unfold parse_dtype.
    + destruct (existsb _ _); [discriminate|].
      destruct (pytype_hashable t); discriminate.
    + destruct (dict_get dtypes name); discriminate.
  - intros d t H.
    assert (E : existsb (fun v => pytype_eqb v t)
                  [py_int; py_str; py_float; py_bool] = true).
    { destruct d as [|t0|name]; [discriminate| |].
      - unfold parse_dtype in H.
        change (dict_values dtypes) with [py_int; py_str; py_float; py_bool] in H.
        destruct (existsb (fun v => pytype_eqb v t0)
                    [py_int; py_str; py_float; py_bool]) eqn:E0.
        + injection H as <-. exact E0.
        + destruct (pytype_hashable t0); discriminate.
      - apply N in H. destruct H as [<-|[<-|[<-|[<-|[]]]]]; reflexivity. }
    split; [exact E | apply R; exact E].
  - exact N.
  - intros n eqs h. unfold parse_dtype.
    change (dict_values dtypes) with [py_int; py_str; py_float; py_bool].
    cbn [existsb pytype_eqb scalar_of pytype_hashable pytype_repr].
    reflexivity.
Qed.

Lemma parse_dtype_range_witness :
  let float64 := py_other "float64" [scalar_float] true in
  parse_dtype (DtType float64) = Ok (Some float64) /\
  existsb (fun v => pytype_eqb v float64) [py_int; py_str; py_float; py_bool] = true /\
  parse_dtype (DtType float64) = Ok (Some float64).
Proof.
  intros float64. split; [reflexivity|].
  exact (proj1 (proj2 parse_dtype_range) (DtType float64) float64 eq_refl).
Defined.

Lemma enumerate_from_In {A : Type} (l : list A) (k j : nat) (x : A) :
  In (j, x) (enumerate_from k l) <-> (k <= j)%nat /\ nth_error l (j - k) = Some x.
Proof.
  revert k; induction l as [|y l IH]; intros k; simpl.
  - split; [contradiction|]. intros [_ H]. destruct (j - k)%nat; discriminate.
  - rewrite IH. split.
    + intros [H|[H1 H2]].
      * injection H as <- <-. rewrite Nat.sub_diag. split; [lia|reflexivity].
      * split; [lia|]. replace (j - k)%nat with (S (j - S k)) by lia. exact H2.
    + intros [H1 H2]. destruct (Nat.eq_dec j k) as [->|Hne].
      * rewrite Nat.sub_diag in H2. injection H2 as <-. left; reflexivity.
      * right. split; [lia|].
        replace (j - k)%nat with (S (j - S k)) in H2 by lia. exact H2.
Qed.

(** X2: the dtype handed to the second [read_table] call, for at most
    twelve BED columns: column [i] below [bed_columns] gets the BED type
    [bed_types[i]], each of the [n_tasks] columns after them gets the label
    dtype, and no other column is named. *)
Theorem dtype_dict_lookup
    (bed_cols : nat) (dtype : option pytype) (n : Z) (i : nat) (d : option pytype) :
  (bed_cols <= 12)%nat ->
  (In (i, d) (dtype_dict bed_cols dtype n) <->
   ((i < bed_cols)%nat /\ exists t, nth_error bed_types i = Some t /\ d = Some t)
   \/ ((bed_cols <= i < bed_cols + Z.to_nat n)%nat /\ d = dtype)).
Proof.
  intros Hbc. unfold dtype_dict, enumerate.
  rewrite enumerate_from_In, Nat.sub_0_r.
  assert (L : List.length (map Some (firstn bed_cols bed_types)) = bed_cols).
  { rewrite length_map, length_firstn. simpl List.length. lia. }
  split.
  - intros [_ H]. destruct (Nat.lt_ge_cases i bed_cols) as [Hi|Hi].
    + left. split; [exact Hi|].
      rewrite nth_error_app1 in H by lia.
      rewrite nth_error_map, nth_error_firstn in H.
      apply Nat.ltb_lt in Hi. rewrite Hi in H.
      destruct (nth_error bed_types i) as [t|]; [|discriminate].
      exists t. split; [reflexivity|]. injection H as <-. reflexivity.
    + right. rewrite nth_error_app2 in H by lia. rewrite L in H.
      assert (Hlt : (i - bed_cols < Z.to_nat n)%nat).
      { rewrite <- (repeat_length dtype (Z.to_nat n)).
        apply nth_error_Some. congruence. }
      split; [lia|]. apply nth_error_In, repeat_spec in H. exact H.
  - intros [[Hi [t [Ht ->]]]|[Hi ->]]; (split; [lia|]).
    + rewrite nth_error_app1 by lia.
      rewrite nth_error_map, nth_error_firstn.
      apply Nat.ltb_lt in Hi. rewrite Hi, Ht. reflexivity.
    + rewrite nth_error_app2 by lia. rewrite L.
      apply nth_error_repeat. lia.
Qed.

Lemma dtype_dict_lookup_witness :
  (3 <= 12)%nat /\
  (In (4%nat, Some py_int) (dtype_dict 3 (Some py_int) 2) <->
   ((4 < 3)%nat /\ exists t, nth_error bed_types 4 = Some t /\ Some py_int = Some t)
   \/ ((3 <= 4 < 3 + Z.to_nat 2)%nat /\ Some py_int = Some py_int)).
Proof.
  assert (H : (3 <= 12)%nat) by lia.
  split; [exact H|].
  exact (@dtype_dict_lookup 3 (Some py_int) 2 4 (Some py_int) H).
Defined.

Lemma iloc_0 {A : Type} (l : list A) :
  iloc l 0 = match l with
             | [] => Raise out_of_bounds
             | x :: _ => Ok x
             end.
Proof. destruct l as [|x l]; reflexivity. Qed.

Lemma mapM_Forall2 {A B : Type} (f : A -> result B) (l : list A) (l' : list B) :
  mapM f l = Ok l' -> Forall2 (fun x y => f x = Ok y) l l'.
Proof.
  revert l'; induction l as [|x l IH]; simpl; intros l' H.
  - injection H as <-. constructor.
  - apply bind_Ok in H; destruct H as [y [Hy H]].
    apply bind_Ok in H; destruct H as [ys [Hys H]].
    injection H as <-. constructor; auto.
Qed.

Lemma Forall2_same {A : Type} (R : A -> A -> Prop) (l : list A) :
  (forall x, R x x) -> Forall2 R l l.
Proof. intros HR; induction l; constructor; auto. Qed.

Lemma Forall2_In_r {A B : Type} (R : A -> B -> Prop) (l : list A) (l' : list B) (y : B) :
  Forall2 R l l' -> In y l' -> exists x, In x l /\ R x y.
Proof.
  induction 1 as [|x y' l l' Hxy _ IH]; simpl; [contradiction|].
  intros [<-|Hy]; [exists x; auto|].
  destruct (IH Hy) as [x' [Hx' HR]]. exists x'; auto.
Qed.

Lemma forallb_false_exists {A : Type} (f : A -> bool) (l : list A) :
  forallb f l = false -> exists x, In x l /\ f x = false.
Proof.
  induction l as [|x l IH]; simpl; [discriminate|].
  destruct (f x) eqn:E; simpl; intros H.
  - destruct (IH H) as [y [Hy Hf]]. exists y; auto.
  - exists x; auto.
Qed.

Section Table.

Context {lib : Collaborators}.

Lemma assign_col0_same (f : cell -> result cell) (df df' : DataFrame) :
  assign_col0 f df = Ok df' -> Forall2 same_but_col0 df df'.
Proof.
  intros H. apply mapM_Forall2 in H.
  eapply Forall2_impl; [|exact H].
  intros r r' Hr. destruct r as [|c rest]; [discriminate|].
  apply bind_Ok in Hr. destruct Hr as [c' [_ Hr]]. injection Hr as <-.
  split; reflexivity.
Qed.

Lemma normalize_chr_same (nc : bool) (df df' : DataFrame) :
  normalize_chr nc df = Ok df' -> Forall2 same_but_col0 df df'.
Proof.
  intros H. unfold normalize_chr in H. destruct nc; simpl in H.
  - apply bind_Ok in H. destruct H as [d [H1 H2]]. injection H2 as <-.
    apply bind_Ok in H1. destruct H1 as [b [_ H1]]. destruct b.
    + apply (assign_col0_same _ _ H1).
    + injection H1 as <-. apply Forall2_same. intros r; split; reflexivity.
  - apply bind_Ok in H. destruct H as [b [_ H]]. destruct b; simpl in H.
    + injection H as <-. apply Forall2_same. intros r; split; reflexivity.
    + apply (assign_col0_same _ _ H).
Qed.

(** X6: whenever the chromosome normalisation succeeds, it leaves every
    row with the cells it had after column 0 and with as many cells, and it
    neither adds nor removes a row. *)
Theorem normalize_chr_only_col0 (nc : bool) (df df' : DataFrame) :
  normalize_chr nc df = Ok df' ->
  Forall2 same_but_col0 df df' /\ List.length df' = List.length df.
Proof.
  intros H. pose proof (normalize_chr_same _ _ H) as F.
  split; [exact F|]. symmetry. apply (Forall2_length F).
Qed.

(** X7: a successful normalisation with [num_chr] false leaves a table
    whose row 0 starts with ["chr"], and normalising that table once more
    changes nothing. *)
Theorem normalize_chr_false_prefixed (df df' : DataFrame) :
  normalize_chr false df = Ok df' ->
  first_row_startswith_chr df' = Ok true /\ normalize_chr false df' = Ok df'.
Proof.
  intros H.
  assert (P : first_row_startswith_chr df' = Ok true).
  { unfold normalize_chr in H; simpl in H.
    apply bind_Ok in H. destruct H as [b [Hb H]]. destruct b; simpl in H.
    - injection H as <-. exact Hb.
    - unfold first_row_startswith_chr in Hb. rewrite iloc_0 in Hb.
      destruct df as [|r df]; [discriminate|]. simpl in Hb.
      destruct r as [|c rest]; [discriminate|]. simpl in Hb.
      destruct c as [s| | |]; try discriminate.
      unfold assign_col0 in H. simpl in H.
      apply bind_Ok in H. destruct H as [rows [_ H]]. injection H as <-.
      unfold first_row_startswith_chr, startswith. rewrite iloc_0. simpl.
      destruct s; reflexivity. }
  split; [exact P|].
  unfold normalize_chr; simpl. rewrite P. reflexivity.
Qed.

Lemma drop_ambiguous_Ok (bed_cols : nat) (mask : option cell) (df0 df1 : DataFrame) :
  drop_ambiguous bed_cols mask df0 = Ok df1 ->
  df1 = filter (fun r => match mask with
                         | Some m => negb (row_ambiguous bed_cols m r)
                         | None => true
                         end) df0.
Proof.
  destruct mask as [m|]; simpl; intros H.
  - unfold all_ambiguous in H. rewrite map_negb_map, getitem_mask_map in H.
    injection H as <-. reflexivity.
  - injection H as <-. symmetry. apply forallb_filter_id.
    apply forallb_forall; reflexivity.
Qed.

(** X3: a constructed interval table records its arguments; its task count
    is the column count of the row peeked minus [bed_columns] and is not
    negative; the table read was not empty and the table kept has at most
    as many rows. *)
Theorem BedDataset_init_invariant
    (tsv : string) (dtype : option pytype) (bed_cols : nat) (nc : bool)
    (mask : option cell) (incl excl : option (list string)) (ds : BedDataset) :
  BedDataset_init tsv dtype bed_cols nc mask incl excl = Ok ds ->
  tsv_file ds = tsv /\ bed_columns ds = bed_cols /\ num_chr ds = nc /\
  label_dtype ds = dtype /\ ambiguous_mask ds = mask /\
  incl_chromosomes ds = incl /\ excl_chromosomes ds = excl /\
  (0 <= n_tasks ds)%Z /\
  (exists df_peek,
     read_table tsv (Some 1) None = Ok df_peek /\
     n_tasks ds = (Z.of_nat (ncols df_peek) - Z.of_nat bed_cols)%Z) /\
  (exists raw,
     read_table tsv None (Some (dtype_dict bed_cols dtype (n_tasks ds))) = Ok raw /\
     raw <> [] /\ (BedDataset_len ds <= List.length raw)%nat).
Proof.
  intros H. pose proof (BedDataset_init_Ok _ _ _ _ _ _ _ H) as K.
  destruct K as [raw [df0 [df1 [df2 [Hraw [H0 [H1 [H2 [H3 Hrec]]]]]]]]].
  assert (F : tsv_file ds = tsv /\ bed_columns ds = bed_cols /\ num_chr ds = nc /\
              label_dtype ds = dtype /\ ambiguous_mask ds = mask /\
              incl_chromosomes ds = incl /\ excl_chromosomes ds = excl)
    by (rewrite Hrec; repeat split; reflexivity).
  destruct F as [F1 [F2 [F3 [F4 [F5 [F6 F7]]]]]].
  unfold BedDataset_init in H.
  apply bind_Ok in H. destruct H as [df_peek [Hpeek H]].
  apply bind_Ok in H. destruct H as [[] [Ha H]].
  unfold BedDataset_load in H.
  apply bind_Ok in H. destruct H as [raw' [_ H]].
  apply bind_Ok in H. destruct H as [a [_ H]].
  apply bind_Ok in H. destruct H as [b [_ H]].
  apply bind_Ok in H. destruct H as [c [_ H]].
  apply bind_Ok in H. destruct H as [d [_ H]].
  assert (N : n_tasks ds = (Z.of_nat (ncols df_peek) - Z.of_nat bed_cols)%Z)
    by (injection H as <-; reflexivity).
  repeat split; try assumption.
  - rewrite N. unfold assert in Ha.
    destruct (0 <=? Z.of_nat (ncols df_peek) - Z.of_nat bed_cols)%Z eqn:E;
      [apply Z.leb_le; exact E | discriminate].
  - exists df_peek. split; assumption.
  - exists raw. split; [exact Hraw|]. split.
    + intros ->. unfold normalize_chr, first_row_startswith_chr in H0.
      destruct nc; simpl in H0; discriminate.
    + unfold BedDataset_len.
      apply drop_excl_Ok in H3. apply keep_incl_Ok in H2.
      apply drop_ambiguous_Ok in H1. apply normalize_chr_length in H0.
      rewrite H3, H2, H1, <- H0.
      eapply Nat.le_trans; [apply filter_length_le|].
      eapply Nat.le_trans; [apply filter_length_le|].
      apply filter_length_le.
Qed.

(** X4: with an ambiguous mask set, every row of the constructed table has
    a task cell that differs from the mask; so when no row read has a cell
    beyond the BED columns, the table is empty. *)
Theorem BedDataset_init_mask_guarantee
    (tsv : string) (dtype : option pytype) (bed_cols : nat) (nc : bool)
    (m : cell) (incl excl : option (list string)) (ds : BedDataset) :
  BedDataset_init tsv dtype bed_cols nc (Some m) incl excl = Ok ds ->
  (forall r, In r (df ds) ->
     exists c, In c (skipn bed_cols r) /\ np_eq c m = false) /\
  (forall raw,
     read_table tsv None (Some (dtype_dict bed_cols dtype (n_tasks ds))) = Ok raw ->
     Forall (fun r => (List.length r <= bed_cols)%nat) raw ->
     df ds = []).
Proof.
  intros H. apply BedDataset_init_Ok in H.
  destruct H as [raw [df0 [df1 [df2 [Hraw [H0 [H1 [H2 [H3 _]]]]]]]]].
  apply drop_excl_Ok in H3. apply keep_incl_Ok in H2.
  apply drop_ambiguous_Ok in H1.
  assert (I : forall r, In r (df ds) ->
                In r df0 /\ row_ambiguous bed_cols m r = false).
  { intros r Hr. rewrite H3 in Hr. apply filter_In in Hr. destruct Hr as [Hr _].
    rewrite H2 in Hr. apply filter_In in Hr. destruct Hr as [Hr _].
    rewrite H1 in Hr. apply filter_In in Hr. destruct Hr as [Hr Hk].
    split; [exact Hr | apply negb_true_iff; exact Hk]. }
  assert (G : forall r, In r (df ds) ->
                exists c, In c (skipn bed_cols r) /\ np_eq c m = false).
  { intros r Hr. destruct (I r Hr) as [_ Ha].
    apply forallb_false_exists in Ha. exact Ha. }
  split; [exact G|].
  intros raw' Hraw' Hshort. rewrite Hraw in Hraw'. injection Hraw' as <-.
  destruct (df ds) as [|r rows] eqn:E; [reflexivity|]. exfalso.
  assert (Hr : In r (r :: rows)) by (left; reflexivity).
  destruct (G r Hr) as [c [Hc _]]. destruct (I r Hr) as [Hr0 _].
  apply normalize_chr_same in H0.
  destruct (@Forall2_In_r _ _ _ _ _ _ H0 Hr0) as [r0 [Hin [_ Hlen]]].
  rewrite Forall_forall in Hshort. specialize (Hshort r0 Hin).
  rewrite skipn_all2 in Hc by lia. contradiction.
Qed.

Lemma chrom_isin_true (names : list string) (r : list cell) :
  chrom_isin names r = true -> exists s rest, r = CStr s :: rest /\ In s names.
Proof.
  destruct r as [|[s| | |] rest]; simpl; try discriminate.
  intros H. apply existsb_exists in H. destruct H as [x [Hx E]].
  apply String.eqb_eq in E. subst x. exists s, rest. auto.
Qed.

Lemma chrom_isin_false (names : list string) (s : string) (rest : list cell) :
  chrom_isin names (CStr s :: rest) = false -> ~ In s names.
Proof.
  simpl. intros H Hin.
  assert (T : existsb (String.eqb s) names = true)
    by (apply existsb_exists; exists s; split; [exact Hin | apply String.eqb_refl]).
  congruence.
Qed.

(** X5: in a constructed table the chromosome of every row is a string of
    the inclusion list, when one is given, and is not in the exclusion list,
    when one is given; a name on both lists is excluded. *)
Theorem BedDataset_init_chromosomes
    (tsv : string) (dtype : option pytype) (bed_cols : nat) (nc : bool)
    (mask : option cell) (incl excl : option (list string)) (ds : BedDataset) :
  BedDataset_init tsv dtype bed_cols nc mask incl excl = Ok ds ->
  forall r, In r (df ds) ->
    (forall names, incl = Some names ->
       exists s rest, r = CStr s :: rest /\ In s names) /\
    (forall names s rest, excl = Some names -> r = CStr s :: rest -> ~ In s names).
Proof.
  intros H r Hr. apply BedDataset_init_Ok in H.
  destruct H as [raw [df0 [df1 [df2 [_ [_ [_ [H2 [H3 _]]]]]]]]].
  apply drop_excl_Ok in H3. apply keep_incl_Ok in H2.
  rewrite H3 in Hr. apply filter_In in Hr. destruct Hr as [Hr He].
  rewrite H2 in Hr. apply filter_In in Hr. destruct Hr as [_ Hi].
  split.
  - intros names ->. apply chrom_isin_true. exact Hi.
  - intros names s rest -> ->. apply chrom_isin_false with (rest := rest).
    apply negb_true_iff. exact He.
Qed.

Lemma iloc_out_of_range {A : Type} (l : list A) (idx : Z) :
  (idx < - Z.of_nat (List.length l) \/ Z.of_nat (List.length l) <= idx)%Z ->
  iloc l idx = Raise out_of_bounds.
Proof.
  intros H. unfold iloc.
  destruct (idx <? 0)%Z eqn:E.
  - apply Z.ltb_lt in E.
    assert (G : (0 <=? idx + Z.of_nat (List.length l))%Z = false)
      by (apply Z.leb_gt; lia).
    rewrite G. reflexivity.
  - apply Z.ltb_ge in E.
    assert (G : (idx <? Z.of_nat (List.length l))%Z = false)
      by (apply Z.ltb_ge; lia).
    rewrite G, andb_false_r. reflexivity.
Qed.

Lemma iloc_in_range {A : Type} (l : list A) (idx : Z) :
  (- Z.of_nat (List.length l) <= idx < Z.of_nat (List.length l))%Z ->
  exists x,
    nth_error l (Z.to_nat (idx mod Z.of_nat (List.length l))) = Some x /\
    iloc l idx = Ok x.
Proof.
  intros H. set (n := Z.of_nat (List.length l)) in *.
  assert (P : (idx mod n = if idx <? 0 then idx + n else idx)%Z).
  { destruct (idx <? 0)%Z eqn:E.
    - apply Z.ltb_lt in E.
      replace idx with (idx + n + (-1) * n)%Z at 1 by lia.
      rewrite Z_mod_plus_full. apply Z.mod_small. lia.
    - apply Z.ltb_ge in E. apply Z.mod_small. lia. }
  unfold iloc. fold n. rewrite <- P.
  assert (B : (0 <= idx mod n < n)%Z) by (apply Z.mod_pos_bound; lia).
  assert (C : ((0 <=? idx mod n) && (idx mod n <? n))%Z = true).
  { apply andb_true_iff. split; [apply Z.leb_le | apply Z.ltb_lt]; lia. }
  rewrite C.
  destruct (nth_error l (Z.to_nat (idx mod n))) as [x|] eqn:E.
  - exists x. split; reflexivity.
  - apply nth_error_None in E. unfold n in B. lia.
Qed.

Lemma iloc_Ok_in_range {A : Type} (l : list A) (idx : Z) (x : A) :
  iloc l idx = Ok x ->
  (- Z.of_nat (List.length l) <= idx < Z.of_nat (List.length l))%Z.
Proof.
  intros H.
  destruct (Z_lt_ge_dec idx (- Z.of_nat (List.length l))) as [L|L];
    [rewrite iloc_out_of_range in H by lia; discriminate|].
  destruct (Z_lt_ge_dec idx (Z.of_nat (List.length l))) as [U|U];
    [lia | rewrite iloc_out_of_range in H by lia; discriminate].
Qed.

Lemma iloc_mod {A : Type} (l : list A) (idx : Z) :
  (- Z.of_nat (List.length l) <= idx < Z.of_nat (List.length l))%Z ->
  iloc l (idx mod Z.of_nat (List.length l)) = iloc l idx.
Proof.
  intros H. destruct (iloc_in_range l H) as [x [Hx E]]. rewrite E.
  assert (B : (0 <= idx mod Z.of_nat (List.length l) < Z.of_nat (List.length l))%Z)
    by (apply Z.mod_pos_bound; lia).
  destruct (@iloc_in_range _ l (idx mod Z.of_nat (List.length l))) as [y [Hy E']];
    [lia|].
  rewrite Z.mod_mod in Hy by lia. rewrite E'. congruence.
Qed.

Lemma Forall2_nth_error_l {A B : Type} (R : A -> B -> Prop) (l : list A)
    (l' : list B) (k : nat) (x : A) :
  Forall2 R l l' -> nth_error l k = Some x ->
  exists y, nth_error l' k = Some y /\ R x y.
Proof.
  intros F; revert k; induction F as [|a b l l' Hab _ IH]; intros k H.
  - destruct k; discriminate.
  - destruct k as [|k]; simpl in *.
    + injection H as <-. exists b; auto.
    + apply IH; exact H.
Qed.

Lemma iloc_Forall2 {A B : Type} (R : A -> B -> Prop) (l : list A) (l' : list B)
    (idx : Z) (x : A) :
  Forall2 R l l' -> iloc l idx = Ok x -> exists y, iloc l' idx = Ok y /\ R x y.
Proof.
  intros F H. pose proof (iloc_Ok_in_range _ _ H) as Hr.
  destruct (iloc_in_range l Hr) as [x' [Hx E]].
  rewrite E in H. injection H as ->.
  destruct (Forall2_nth_error_l _ F Hx) as [y [Hy HR]].
  exists y. split; [|exact HR].
  pose proof (Forall2_length F) as L. rewrite L in Hr, Hy.
  destruct (iloc_in_range l' Hr) as [y' [Hy' E']]. rewrite E'. congruence.
Qed.

(** X8: a position outside [-len, len) makes the table lookup raise
    [IndexError], a failure of the index class, before the interval is
    built; a position inside reaches a row of the table. *)
Theorem BedDataset_getitem_bounds (self : BedDataset) (idx : Z) :
  let n := Z.of_nat (BedDataset_len self) in
  ((idx < - n \/ n <= idx)%Z ->
     BedDataset_getitem self idx = Raise out_of_bounds
     /\ classify out_of_bounds = IndexErrorClass) /\
  ((- n <= idx < n)%Z ->
     exists row,
       nth_error (df self) (Z.to_nat (idx mod n)) = Some row /\
       iloc (df self) idx = Ok row) /\
  (forall r, BedDataset_getitem self idx = Ok r -> (- n <= idx < n)%Z).
Proof.
  intros n. unfold n, BedDataset_len. split; [|split].
  - intros H. split; [|reflexivity].
    unfold BedDataset_getitem. rewrite iloc_out_of_range by exact H. reflexivity.
  - intros H. apply iloc_in_range. exact H.
  - intros r H. unfold BedDataset_getitem in H.
    apply bind_Ok in H. destruct H as [row [H _]].
    apply (iloc_Ok_in_range _ _ H).
Qed.

(** X9: a position counts from the end when it is negative: inside the
    range, the lookup at [idx] is the lookup at [idx mod len]. *)
Theorem BedDataset_getitem_negative (self : BedDataset) (idx : Z) :
  let n := Z.of_nat (BedDataset_len self) in
  (- n <= idx < n)%Z ->
  BedDataset_getitem self (idx mod n) = BedDataset_getitem self idx.
Proof.
  intros n H. unfold n, BedDataset_len in *.
  unfold BedDataset_getitem. rewrite iloc_mod by exact H. reflexivity.
Qed.

(** X10: [get_targets] has one row per row of the table, and a lookup
    returns, for a table with task columns, the row of [get_targets] at its
    position; for a table without task columns it returns the empty dict. *)
Theorem BedDataset_get_targets_rows (self : BedDataset) (rows : list (list cell)) :
  BedDataset_get_targets self = Ok rows ->
  List.length rows = BedDataset_len self /\
  forall idx interval labs,
    BedDataset_getitem self idx = Ok (interval, labs) ->
    (n_tasks self = 0%Z -> labs = LabelsDict) /\
    (n_tasks self <> 0%Z -> exists a, iloc rows idx = Ok a /\ labs = LabelsArray a).
Proof.
  unfold BedDataset_get_targets. intros H.
  split; [apply (mapM_length _ _ H)|].
  apply mapM_Forall2 in H.
  intros idx interval labs G. unfold BedDataset_getitem in G.
  apply bind_Ok in G. destruct G as [row [Hrow G]].
  apply bind_Ok in G. destruct G as [iv [_ G]].
  apply bind_Ok in G. destruct G as [l [Hl G]]. injection G as _ <-.
  split.
  - intros Hz. rewrite Hz in Hl. simpl in Hl. injection Hl as <-. reflexivity.
  - intros Hnz. apply Z.eqb_neq in Hnz. rewrite Hnz in Hl.
    apply bind_Ok in Hl. destruct Hl as [a [Ha Hl]]. injection Hl as <-.
    destruct (iloc_Forall2 _ H Hrow) as [y [Hy Hc]]. simpl in Hc.
    exists a. split; [|reflexivity]. congruence.
Qed.

End Table.

Lemma iloc_shift {A : Type} (l : list A) (idx : Z) :
  (- Z.of_nat (List.length l) <= idx < 0)%Z ->
  iloc l (idx + Z.of_nat (List.length l)) = iloc l idx.
Proof.
  intros H. rewrite <- (iloc_mod l (idx := idx)) by lia. f_equal.
  replace idx with (idx + Z.of_nat (List.length l)
                    + (-1) * Z.of_nat (List.length l))%Z at 2 by lia.
  rewrite Z_mod_plus_full. symmetry. apply Z.mod_small. lia.
Qed.

Lemma str_inj (a b : Z) : str a = str b -> a = b.
Proof.
  intros H. pose proof (str_roundtrip a) as Ha. rewrite H, str_roundtrip in Ha.
  congruence.
Qed.

Section Lookups.

Context {lib : Collaborators}.

Lemma after_lookups_spec (self : SeqStringDataset) (idxs : list Z) :
  after_lookups self idxs
  = match idxs, get_extractor self with
    | _ :: _, Ok e => set_fasta_extractors self e
    | _, _ => self
    end.
Proof.
  assert (G : forall (l : list Z) (s : SeqStringDataset),
             fst (SeqStringDataset_getitem s 0) = s ->
             fold_left (fun s i => fst (SeqStringDataset_getitem s i)) l s = s).
  { induction l as [|j l IH]; intros s Hs; [reflexivity|]. cbn [fold_left].
    assert (Hj : fst (SeqStringDataset_getitem s j) = s).
    { unfold SeqStringDataset_getitem in *.
      destruct (get_extractor s); [exact Hs | reflexivity]. }
    rewrite Hj. apply IH. exact Hs. }
  unfold after_lookups. destruct idxs as [|i idxs]; [reflexivity|].
  cbn [fold_left]. unfold SeqStringDataset_getitem at 2.
  destruct (get_extractor self) as [e|err] eqn:E; cbn [fst]; apply G.
  - reflexivity.
  - unfold SeqStringDataset_getitem. rewrite E. reflexivity.
Qed.

(** X11: lookups do not interfere.  After any lookups, failed ones
    included, a lookup returns what it returns on the dataset as it was.
    When the extractor handle can be obtained, the dataset holds it after
    the first lookup; when building it raises, the dataset held none and is
    left as it was.  The table, the required length, the anchor and the
    FASTA path never change. *)
Theorem lookups_do_not_interfere (self : SeqStringDataset) (idxs : list Z) (idx : Z) :
  snd (SeqStringDataset_getitem (after_lookups self idxs) idx)
  = snd (SeqStringDataset_getitem self idx) /\
  (forall e, get_extractor self = Ok e -> idxs <> [] ->
     fasta_extractors (after_lookups self idxs) = Some e) /\
  (forall err, get_extractor self = Raise err ->
     after_lookups self idxs = self /\ fasta_extractors self = None) /\
  bed (after_lookups self idxs) = bed self /\
  required_seq_len (after_lookups self idxs) = required_seq_len self /\
  auto_resize (after_lookups self idxs) = auto_resize self /\
  fasta_file (after_lookups self idxs) = fasta_file self.
Proof.
  rewrite after_lookups_spec.
  split; [|split; [|split]].
  - destruct idxs as [|i idxs]; [reflexivity|].
    destruct (get_extractor self) as [e|err] eqn:E; [|reflexivity].
    rewrite !SeqStringDataset_getitem_eq. rewrite E. reflexivity.
  - intros e He Hne. rewrite He. destruct idxs; [congruence | reflexivity].
  - intros err He. rewrite He. split; [destruct idxs; reflexivity|].
    unfold get_extractor in He. destruct (fasta_extractors self);
      [discriminate | reflexivity].
  - destruct idxs; [repeat split; reflexivity|].
    destruct (get_extractor self); repeat split; reflexivity.
Qed.

(** X14: a position outside [-len, len) makes the lookup of the string
    dataset fail whatever the required length and the anchor are: with the
    extractor handle obtained it raises [IndexError] and the dataset holds
    the handle all the same; when building the handle raises, that error
    comes first and the dataset is left as it was.  A lookup that returns a
    sample was given a position inside the range. *)
Theorem SeqStringDataset_getitem_bounds (self : SeqStringDataset) (idx : Z) :
  let n := Z.of_nat (SeqStringDataset_len self) in
  ((idx < - n \/ n <= idx)%Z ->
     snd (SeqStringDataset_getitem self idx)
     = (get_extractor self ;;; Raise out_of_bounds) /\
     (forall e, get_extractor self = Ok e ->
        snd (SeqStringDataset_getitem self idx) = Raise out_of_bounds /\
        fasta_extractors (fst (SeqStringDataset_getitem self idx)) = Some e) /\
     (forall err, get_extractor self = Raise err ->
        snd (SeqStringDataset_getitem self idx) = Raise err /\
        fst (SeqStringDataset_getitem self idx) = self)) /\
  (forall sample,
     snd (SeqStringDataset_getitem self idx) = Ok sample -> (- n <= idx < n)%Z).
Proof.
  intros n. unfold n, SeqStringDataset_len, BedDataset_len. split.
  - intros H.
    assert (G : snd (SeqStringDataset_getitem self idx)
                = (get_extractor self ;;; Raise out_of_bounds)).
    { rewrite SeqStringDataset_getitem_eq.
      destruct (get_extractor self) as [e|err]; [|reflexivity]. cbn [bind].
      unfold BedDataset_getitem. rewrite iloc_out_of_range by exact H.
      reflexivity. }
    split; [exact G|]. split.
    + intros e He. split; [rewrite G, He; reflexivity|].
      unfold SeqStringDataset_getitem. rewrite He. reflexivity.
    + intros err He. unfold SeqStringDataset_getitem. rewrite He.
      split; reflexivity.
  - intros sample H. rewrite SeqStringDataset_getitem_eq in H.
    apply bind_Ok in H. destruct H as [e [_ H]].
    apply bind_Ok in H. destruct H as [il [H _]].
    unfold BedDataset_getitem in H.
    apply bind_Ok in H. destruct H as [row [H _]].
    apply (iloc_Ok_in_range _ _ H).
Qed.

(** X12: the id of a sample tells the position that was asked for: two
    lookups that return samples with the same id were given the same
    position. *)
Theorem sample_id_identifies_position
    (self self' : SeqStringDataset) (i j : Z) (sample sample' : Sample) :
  snd (SeqStringDataset_getitem self i) = Ok sample ->
  snd (SeqStringDataset_getitem self' j) = Ok sample' ->
  gr_id (ranges (metadata sample)) = gr_id (ranges (metadata sample')) ->
  i = j.
Proof.
  intros H H' E.
  rewrite SeqStringDataset_getitem_eq in H, H'.
  apply bind_Ok in H. destruct H as [e [_ H]].
  apply bind_Ok in H. destruct H as [il [_ H]].
  apply bind_Ok in H. destruct H as [iv [_ H]].
  apply bind_Ok in H. destruct H as [seq [_ H]]. injection H as <-.
  apply bind_Ok in H'. destruct H' as [e' [_ H']].
  apply bind_Ok in H'. destruct H' as [il' [_ H']].
  apply bind_Ok in H'. destruct H' as [iv' [_ H']].
  apply bind_Ok in H'. destruct H' as [seq' [_ H']]. injection H' as <-.
  simpl in E. apply str_inj. exact E.
Qed.

(** X13: the id of a sample is the position as it was asked for.  A
    negative position inside the range and the same position counted from
    the start give samples with the same sequence, labels, chromosome, start
    and stop, and with different ids. *)
Theorem SeqStringDataset_getitem_negative
    (self : SeqStringDataset) (idx : Z) (sample : Sample) :
  let n := Z.of_nat (SeqStringDataset_len self) in
  (- n <= idx < 0)%Z ->
  snd (SeqStringDataset_getitem self idx) = Ok sample ->
  exists sample',
    snd (SeqStringDataset_getitem self (idx + n)) = Ok sample' /\
    inputs sample' = inputs sample /\
    targets sample' = targets sample /\
    gr_chr (ranges (metadata sample')) = gr_chr (ranges (metadata sample)) /\
    gr_start (ranges (metadata sample')) = gr_start (ranges (metadata sample)) /\
    gr_end (ranges (metadata sample')) = gr_end (ranges (metadata sample)) /\
    gr_id (ranges (metadata sample)) = str idx /\
    gr_id (ranges (metadata sample')) = str (idx + n) /\
    gr_id (ranges (metadata sample')) <> gr_id (ranges (metadata sample)).
Proof.
  intros n Hr H. unfold n, SeqStringDataset_len, BedDataset_len in *.
  rewrite SeqStringDataset_getitem_eq in H.
  apply bind_Ok in H. destruct H as [e [He H]].
  apply bind_Ok in H. destruct H as [il [Hil H]].
  apply bind_Ok in H. destruct H as [interval [Hc H]].
  apply bind_Ok in H. destruct H as [seq [Hs H]]. injection H as <-.
  exists (sample_of interval (snd il) seq (idx + Z.of_nat (List.length (df (bed self))))).
  split.
  - rewrite SeqStringDataset_getitem_eq, He. cbn [bind].
    unfold BedDataset_getitem in *. rewrite iloc_shift by exact Hr.
    rewrite Hil. cbn [bind]. rewrite Hc. cbn [bind]. rewrite Hs. reflexivity.
  - repeat split. simpl. intros E. apply str_inj in E. lia.
Qed.

End Lookups.

Section OneHotDataset.

Context {lib : Collaborators}.

(** X15: a lookup of the one-hot dataset fails as the lookup of its string
    dataset fails; when it returns a sample, the string dataset returned one
    with the same labels and the same ranges, and the input is that sample's
    string put through the transforms; the dataset keeps its settings and
    holds the string dataset as the lookup left it. *)
Theorem SeqDataset_getitem_frame (self : SeqDataset) (idx : Z) :
  (forall e,
     snd (SeqStringDataset_getitem (seq_string_dataset self) idx) = Raise e ->
     snd (SeqDataset_getitem self idx) = Raise e) /\
  (forall sample,
     snd (SeqDataset_getitem self idx) = Ok sample ->
     exists sample0,
       snd (SeqStringDataset_getitem (seq_string_dataset self) idx) = Ok sample0 /\
       Compose (input_tranform self) (inputs sample0) = Ok (inputs sample) /\
       targets sample = targets sample0 /\
       metadata sample = metadata sample0) /\
  seq_string_dataset (fst (SeqDataset_getitem self idx))
  = fst (SeqStringDataset_getitem (seq_string_dataset self) idx) /\
  alphabet (fst (SeqDataset_getitem self idx)) = alphabet self /\
  alphabet_axis (fst (SeqDataset_getitem self idx)) = alphabet_axis self /\
  dummy_axis (fst (SeqDataset_getitem self idx)) = dummy_axis self /\
  input_tranform (fst (SeqDataset_getitem self idx)) = input_tranform self.
Proof.
  unfold SeqDataset_getitem.
  destruct (SeqStringDataset_getitem (seq_string_dataset self) idx) as [ssd r].
  cbn [fst snd]. split; [|split; [|repeat split]].
  - intros e ->. reflexivity.
  - intros sample H. apply bind_Ok in H. destruct H as [s0 [Hs0 H]].
    apply bind_Ok in H. destruct H as [x [Hx H]]. injection H as <-.
    exists s0. repeat split; assumption.
Qed.

(** X16: with a list as alphabet, the construction of the one-hot dataset
    fails as the construction of its string dataset fails; a constructed
    dataset holds the list as given, the two axes as given, and a string
    dataset built from the same arguments with [force_upper] true, no
    extractor yet, as long as the table read. *)
Theorem SeqDataset_init_list_alphabet
    (intervals fasta : string) (num_chr_flag : bool) (dtype_name : dtype_arg)
    (seq_len : option Z) (strand : bool) (anchor : option string)
    (axis : nat) (dummy : option nat) (symbols : list string) :
  (forall e,
     SeqStringDataset_init intervals fasta num_chr_flag dtype_name seq_len
       strand true anchor = Raise e ->
     SeqDataset_init intervals fasta num_chr_flag dtype_name seq_len strand
       anchor axis dummy (AlphaList symbols) = Raise e) /\
  (forall ds,
     SeqDataset_init intervals fasta num_chr_flag dtype_name seq_len strand
       anchor axis dummy (AlphaList symbols) = Ok ds ->
     alphabet ds = symbols /\ alphabet_axis ds = axis /\ dummy_axis ds = dummy /\
     SeqStringDataset_init intervals fasta num_chr_flag dtype_name seq_len
       strand true anchor = Ok (seq_string_dataset ds) /\
     force_upper (seq_string_dataset ds) = true /\
     use_strand (seq_string_dataset ds) = strand /\
     required_seq_len (seq_string_dataset ds) = seq_len /\
     auto_resize (seq_string_dataset ds) = anchor /\
     fasta_file (seq_string_dataset ds) = fasta /\
     fasta_extractors (seq_string_dataset ds) = None /\
     SeqDataset_len ds = BedDataset_len (bed (seq_string_dataset ds))).
Proof.
  unfold SeqDataset_init. cbn [parse_alphabet bind]. split.
  - intros e ->. reflexivity.
  - intros ds H. apply bind_Ok in H. destruct H as [ssd [Hssd H]].
    injection H as <-. cbn [alphabet alphabet_axis dummy_axis seq_string_dataset].
    assert (F : force_upper ssd = true /\ use_strand ssd = strand /\
                required_seq_len ssd = seq_len /\ auto_resize ssd = anchor /\
                fasta_file ssd = fasta /\ fasta_extractors ssd = None).
    { unfold SeqStringDataset_init in Hssd.
      apply bind_Ok in Hssd. destruct Hssd as [d [_ Hssd]].
      apply bind_Ok in Hssd. destruct Hssd as [b [_ Hssd]].
      injection Hssd as <-. repeat split; reflexivity. }
    destruct F as [F1 [F2 [F3 [F4 [F5 F6]]]]].
    repeat split; assumption.
Qed.

End OneHotDataset.

(** ** The further properties at work on the example tables *)

Lemma BedDataset_init_invariant_witness :
  BedDataset_init (lib := example_lib) "intervals.tsv" (Some py_int) 3 false
    None None None = Ok example_bed /\
  (0 <= n_tasks example_bed)%Z /\
  exists raw,
    read_table (Collaborators := example_lib) "intervals.tsv" None
      (Some (dtype_dict 3 (Some py_int) (n_tasks example_bed))) = Ok raw /\
    raw <> [] /\ (BedDataset_len example_bed <= List.length raw)%nat.
Proof.
  split; [reflexivity|].
  destruct (@BedDataset_init_invariant example_lib "intervals.tsv" (Some py_int) 3
              false None None None example_bed eq_refl)
    as [_ [_ [_ [_ [_ [_ [_ [Hn [_ Hraw]]]]]]]]].
  split; [exact Hn | exact Hraw].
Defined.

Lemma BedDataset_init_mask_guarantee_witness :
  let raw := [[CStr "1"; CInt 100; CInt 200]; [CStr "2"; CInt 300; CInt 400]] in
  BedDataset_init (lib := example_lib) "numeric.tsv" None 3 false
    (Some (CInt 0)) None None = Ok example_emptied_bed /\
  read_table (Collaborators := example_lib) "numeric.tsv" None
    (Some (dtype_dict 3 None (n_tasks example_emptied_bed))) = Ok raw /\
  Forall (fun r => (List.length r <= 3)%nat) raw /\
  df example_emptied_bed = [].
Proof.
  intros raw.
  assert (F : Forall (fun r => (List.length r <= 3)%nat) raw)
    by (repeat constructor).
  split; [reflexivity|]. split; [reflexivity|]. split; [exact F|].
  exact (proj2 (@BedDataset_init_mask_guarantee example_lib "numeric.tsv" None 3
                  false (CInt 0) None None example_emptied_bed eq_refl)
           raw eq_refl F).
Defined.

Lemma BedDataset_init_chromosomes_witness :
  let r := [CStr "chr1"; CInt 0; CInt 10; CInt 1; CInt (-1)] in
  BedDataset_init (lib := example_lib) "masked.tsv" None 3 false
    (Some (CInt (-1))) None (Some ["chr3"]) = Ok example_masked_bed /\
  In r (df example_masked_bed) /\
  ~ In "chr1" ["chr3"].
Proof.
  intros r.
  assert (Hr : In r (df example_masked_bed)) by (left; reflexivity).
  split; [reflexivity|]. split; [exact Hr|].
  exact (proj2 (@BedDataset_init_chromosomes example_lib "masked.tsv" None 3 false
                  (Some (CInt (-1))) None (Some ["chr3"]) example_masked_bed
                  eq_refl r Hr)
           ["chr3"] "chr1" [CInt 0; CInt 10; CInt 1; CInt (-1)] eq_refl eq_refl).
Defined.

Lemma normalize_chr_only_col0_witness :
  let df := [[CStr "1"; CInt 100; CInt 200]; [CStr "2"; CInt 300; CInt 400]] in
  let df' := [[CStr "chr1"; CInt 100; CInt 200]; [CStr "chr2"; CInt 300; CInt 400]] in
  normalize_chr false df = Ok df' /\
  Forall2 same_but_col0 df df' /\ List.length df' = List.length df.
Proof.
  intros df df'. split; [reflexivity|].
  exact (@normalize_chr_only_col0 false df df' eq_refl).
Defined.

Lemma normalize_chr_false_prefixed_witness :
  let df := [[CStr "1"; CInt 100; CInt 200]; [CStr "2"; CInt 300; CInt 400]] in
  let df' := [[CStr "chr1"; CInt 100; CInt 200]; [CStr "chr2"; CInt 300; CInt 400]] in
  normalize_chr false df = Ok df' /\
  first_row_startswith_chr df' = Ok true /\ normalize_chr false df' = Ok df'.
Proof.
  intros df df'. split; [reflexivity|].
  exact (@normalize_chr_false_prefixed df df' eq_refl).
Defined.

Lemma BedDataset_getitem_bounds_witness :
  (2 < - Z.of_nat (BedDataset_len example_bed)
   \/ Z.of_nat (BedDataset_len example_bed) <= 2)%Z /\
  BedDataset_getitem (lib := example_lib) example_bed 2 = Raise out_of_bounds.
Proof.
  assert (H : (2 < - Z.of_nat (BedDataset_len example_bed)
               \/ Z.of_nat (BedDataset_len example_bed) <= 2)%Z)
    by (right; simpl; lia).
  split; [exact H|].
  exact (proj1 (proj1 (@BedDataset_getitem_bounds example_lib example_bed 2) H)).
Defined.

Lemma BedDataset_getitem_negative_witness :
  (- Z.of_nat (BedDataset_len example_bed) <= -1
   < Z.of_nat (BedDataset_len example_bed))%Z /\
  BedDataset_getitem (lib := example_lib) example_bed
    (-1 mod Z.of_nat (BedDataset_len example_bed))
  = BedDataset_getitem (lib := example_lib) example_bed (-1).
Proof.
  assert (H : (- Z.of_nat (BedDataset_len example_bed) <= -1
               < Z.of_nat (BedDataset_len example_bed))%Z) by (simpl; lia).
  split; [exact H|].
  exact (@BedDataset_getitem_negative example_lib example_bed (-1) H).
Defined.

Lemma BedDataset_get_targets_rows_witness :
  BedDataset_get_targets (lib := example_lib) example_bed
  = Ok [[CInt 1]; [CInt 0]] /\
  List.length [[CInt 1]; [CInt 0]] = BedDataset_len example_bed.
Proof.
  split; [reflexivity|].
  exact (proj1 (@BedDataset_get_targets_rows example_lib example_bed
                  [[CInt 1]; [CInt 0]] eq_refl)).
Defined.

Lemma lookups_do_not_interfere_witness :
  let e := mkFastaStringExtractor "genome.fa" false true in
  get_extractor (lib := example_lib) (example_dataset None None) = Ok e /\
  [1%Z; 7%Z] <> [] /\
  fasta_extractors
    (after_lookups (lib := example_lib) (example_dataset None None) [1%Z; 7%Z])
  = Some e.
Proof.
  intros e.
  assert (H : [1%Z; 7%Z] <> []) by discriminate.
  split; [reflexivity|]. split; [exact H|].
  exact (proj1 (proj2 (@lookups_do_not_interfere example_lib
                         (example_dataset None None) [1%Z; 7%Z] 0))
           e eq_refl H).
Defined.

Lemma sample_id_identifies_position_witness :
  let sample :=
    mkSample (np_array "NNNNN") (LabelsArray [CInt 0])
      (mkMetadata (mkGenomicRanges "chr1" 30 35 "1")) in
  snd (SeqStringDataset_getitem (lib := example_lib) (example_dataset None None) 1)
  = Ok sample /\
  snd (SeqStringDataset_getitem (lib := example_lib)
         (example_dataset (Some 5%Z) None) 1)
  = Ok sample /\
  1%Z = 1%Z.
Proof.
  intros sample. split; [reflexivity|]. split; [reflexivity|].
  exact (@sample_id_identifies_position example_lib (example_dataset None None)
           (example_dataset (Some 5%Z) None) 1 1 sample sample
           eq_refl eq_refl eq_refl).
Defined.

Lemma SeqStringDataset_getitem_negative_witness :
  let self := example_dataset None None in
  let sample :=
    mkSample (np_array "NNNNN") (LabelsArray [CInt 0])
      (mkMetadata (mkGenomicRanges "chr1" 30 35 "-1")) in
  (- Z.of_nat (SeqStringDataset_len self) <= -1 < 0)%Z /\
  snd (SeqStringDataset_getitem (lib := example_lib) self (-1)) = Ok sample /\
  exists sample',
    snd (SeqStringDataset_getitem (lib := example_lib) self
           (-1 + Z.of_nat (SeqStringDataset_len self))) = Ok sample' /\
    inputs sample' = inputs sample /\
    targets sample' = targets sample /\
    gr_chr (ranges (metadata sample')) = gr_chr (ranges (metadata sample)) /\
    gr_start (ranges (metadata sample')) = gr_start (ranges (metadata sample)) /\
    gr_end (ranges (metadata sample')) = gr_end (ranges (metadata sample)) /\
    gr_id (ranges (metadata sample)) = str (-1) /\
    gr_id (ranges (metadata sample'))
    = str (-1 + Z.of_nat (SeqStringDataset_len self)) /\
    gr_id (ranges (metadata sample')) <> gr_id (ranges (metadata sample)).
Proof.
  intros self sample.
  assert (H : (- Z.of_nat (SeqStringDataset_len self) <= -1 < 0)%Z)
    by (simpl; lia).
  split; [exact H|]. split; [reflexivity|].
  exact (@SeqStringDataset_getitem_negative example_lib self (-1) sample H eq_refl).
Defined.

Lemma SeqStringDataset_getitem_bounds_witness :
  let self := example_dataset (Some 20%Z) None in
  let e := mkFastaStringExtractor "genome.fa" false true in
  (5 < - Z.of_nat (SeqStringDataset_len self)
   \/ Z.of_nat (SeqStringDataset_len self) <= 5)%Z /\
  get_extractor (lib := example_lib) self = Ok e /\
  snd (SeqStringDataset_getitem (lib := example_lib) self 5) = Raise out_of_bounds /\
  fasta_extractors (fst (SeqStringDataset_getitem (lib := example_lib) self 5))
  = Some e.
Proof.
  intros self e.
  assert (H : (5 < - Z.of_nat (SeqStringDataset_len self)
               \/ Z.of_nat (SeqStringDataset_len self) <= 5)%Z)
    by (right; simpl; lia).
  split; [exact H|]. split; [reflexivity|].
  exact (proj1 (proj2 (proj1 (@SeqStringDataset_getitem_bounds example_lib self 5) H))
           e eq_refl).
Defined.

Lemma SeqDataset_getitem_frame_witness :
  snd (SeqStringDataset_getitem (lib := example_lib)
         (seq_string_dataset example_seq_dataset) 9) = Raise out_of_bounds /\
  snd (SeqDataset_getitem (lib := example_lib) example_seq_dataset 9)
  = Raise out_of_bounds.
Proof.
  split; [reflexivity|].
  exact (proj1 (@SeqDataset_getitem_frame example_lib example_seq_dataset 9)
           out_of_bounds eq_refl).
Defined.

Lemma SeqDataset_init_list_alphabet_witness :
  SeqDataset_init (lib := example_lib) "intervals.tsv" "genome.fa" false
    (DtName "int") None false None 1 (Some 2) (AlphaList ["A"; "C"; "G"; "T"])
  = Ok example_seq_dataset /\
  alphabet example_seq_dataset = ["A"; "C"; "G"; "T"] /\
  force_upper (seq_string_dataset example_seq_dataset) = true.
Proof.
  split; [reflexivity|].
  destruct (proj2 (@SeqDataset_init_list_alphabet example_lib "intervals.tsv"
                     "genome.fa" false (DtName "int") None false None 1 (Some 2)
                     ["A"; "C"; "G"; "T"]) example_seq_dataset eq_refl)
    as [H1 [_ [_ [_ [H5 _]]]]].
  split; [exact H1 | exact H5].
Defined.

(** ** Counterexamples *)


(** C4 as the specification has it: the lookup fails with the length
    mismatch whenever the lengths differ and no anchor is set.  On a dataset
    whose FASTA file
    cannot be opened, row 1 has length 5 against the required 20 and no
    anchor is set, and the lookup fails with the constructor's error, which
    is not of the configuration class. *)
Lemma getitem_length_mismatch_counterexample :
  let self := unreadable_dataset (Some 20%Z) None in
  let interval := mkInterval "chr1" 30 35 [CStr "chr1"; CInt 30; CInt 35] in
  BedDataset_getitem (lib := example_lib) (bed self) 1
  = Ok (interval, LabelsArray [CInt 0]) /\
  required_seq_len self = Some 20%Z /\
  (stop interval - start interval)%Z <> 20%Z /\
  auto_resize self = None /\
  snd (SeqStringDataset_getitem (lib := example_lib) self 1)
  = Raise (FastaNotFoundError "missing.fa") /\
  snd (SeqStringDataset_getitem (lib := example_lib) self 1) <> Raise length_mismatch /\
  classify (FastaNotFoundError "missing.fa") <> ConfigurationError.
Proof.
  intros self interval.
  split; [reflexivity|]. split; [reflexivity|]. split; [simpl; lia|].
  split; [reflexivity|]. split; [reflexivity|]. split; discriminate.
Qed.
